(** * Market-sizing research workflow: a model of the Lambda code and its properties

    The development embeds [prompt_factory.py] and
    [research_sequence_task.py] as Rocq functions and proves the properties
    the specification states about them.

    - Python values that travel through the code (JSON-decoded data,
      [None], strings) are values of [json].
    - A Python [dict] is an insertion-ordered association list with unique
      keys by construction ([dict_set] replaces in place, otherwise
      appends), which is the order Python's [dict] keeps.
    - Code that prints, calls the network or raises runs in the monad [M]:
      a state transformer whose state survives a raised exception, as the
      interpreter's does.
    - What lives outside the repository (the HTTP endpoint, the Exa client,
      [json.loads], [repr], the thread pool's scheduling) is an interface,
      [Builtins] and [Services]; every theorem holds for all of its
      implementations. *)

From Stdlib Require Import String Ascii List Bool ZArith Lia.
From Stdlib Require Import Permutation.
Import ListNotations.
Open Scope list_scope.
Open Scope string_scope.

Set Implicit Arguments.
Set Warnings "-register-all".

(* ===================================================================== *)
(** * Python values *)
(* ===================================================================== *)

(** Values produced by [json.loads], plus [None]: the only values the
    workflow ever handles.  A float keeps its literal; no arithmetic is
    done on numbers anywhere in the code. *)
Inductive json : Type :=
| JNull : json
| JBool (b : bool) : json
| JInt (n : Z) : json
| JFloat (literal : string) : json
| JString (s : string) : json
| JArray (items : list json) : json
| JObject (members : list (string * json)) : json.

(** Instances of [Exception] the code raises itself or lets through.
    [ValueError] keeps its message: it is the payload a caller of
    [get_prompt] sees. *)
Inductive exn : Type :=
| ValueError (msg : string)
| TypeError
| KeyError
| IndexError
| AttributeError
| JSONDecodeError
| HTTPError (status_code : Z)
| OtherException (class_name : string).

Definition nl : string := String (ascii_of_nat 10) EmptyString.

(* ===================================================================== *)
(** * Python dictionaries *)
(* ===================================================================== *)

Module PyDict.

Definition dict (V : Type) : Type := list (string * V).

Definition empty {V} : dict V := [].

(** [d.get(k)] / [d[k]]: the value stored under [k], if any. *)
Fixpoint dict_get {V} (d : dict V) (k : string) : option V :=
  match d with
  | [] => None
  | (k', v) :: d' => if String.eqb k' k then Some v else dict_get d' k
  end.

(** [d.get(k, default)]. *)
Definition dict_get_default {V} (d : dict V) (k : string) (default : V) : V :=
  match dict_get d k with
  | Some v => v
  | None => default
  end.

(** [d[k] = v]: an existing key keeps its position, a new key goes last. *)
Fixpoint dict_set {V} (d : dict V) (k : string) (v : V) : dict V :=
  match d with
  | [] => [(k, v)]
  | (k', v') :: d' =>
      if String.eqb k' k then (k', v) :: d' else (k', v') :: dict_set d' k v
  end.

(** [list(d.keys())]. *)
Definition dict_keys {V} (d : dict V) : list string := map fst d.

(** [k in d]. *)
Definition dict_mem {V} (d : dict V) (k : string) : bool :=
  match dict_get d k with
  | Some _ => true
  | None => false
  end.

(** [a | b]: a copy of [a] updated with the items of [b], in order. *)
Definition dict_or {V} (a b : dict V) : dict V :=
  fold_left (fun acc kv => dict_set acc (fst kv) (snd kv)) b a.

(** A dict display [{k1: v1, ..., kn: vn}] or a comprehension: the items are
    stored one after the other. *)
Definition dict_of_items {V} (items : list (string * V)) : dict V :=
  dict_or empty items.

End PyDict.
Import PyDict.

(* ===================================================================== *)
(** * Built-ins that are not modelled *)
(* ===================================================================== *)

(** [json_loads s] is [json.loads(s)] on a [str]: [None] stands for
    [JSONDecodeError].  [py_repr v] is what an f-string hole prints for a
    number, a list or a dict. *)
Class Builtins : Type := {
  json_loads : string -> option json;
  py_repr : json -> string
}.

(** What an f-string hole [{v}] prints. *)
Definition py_str `{Builtins} (v : json) : string :=
  match v with
  | JString s => s
  | JNull => "None"
  | JBool true => "True"
  | JBool false => "False"
  | _ => py_repr v
  end.

(** [repr] of a [str] made of identifier characters: the text between
    single quotes.  Used for the keys of the router only. *)
Definition repr_identifier (s : string) : string := "'" ++ s ++ "'".

Fixpoint join (sep : string) (l : list string) : string :=
  match l with
  | [] => EmptyString
  | [x] => x
  | x :: l' => x ++ sep ++ join sep l'
  end.

(** [repr] of a list of such strings. *)
Definition repr_identifier_list (l : list string) : string :=
  "[" ++ join ", " (map repr_identifier l) ++ "]".

(* ===================================================================== *)
(** * prompt_factory.py *)
(* ===================================================================== *)

Module PromptFactory.
Section Templates.
Context `{Builtins}.

Definition clarifying_questions_prompt (market_description : json) : string :=
  "I want to size the market for: " ++ py_str market_description ++ "." ++ nl ++ nl
  ++ "Before generating the formula, are there any clarifying questions to get additional context needed for a good formula?" ++ nl ++ nl
  ++ "These questions should directly inform the formula inputs.".

Definition formula_brainstorm_prompt (market_description : json) : string :=
  "I want to size the market for: " ++ py_str market_description ++ "." ++ nl ++ nl
  ++ "Please return a JSON with the following fields:" ++ nl ++ nl
  ++ "steps: string - A numbered overview of the steps." ++ nl
  ++ "formula: list of strings - Market sizing formulas expressed as strings, excluding explicit adoption/penetration rates." ++ nl
  ++ "clarifications: list of strings - Clarifying questions to consider for the formulas.".

Definition datasource_prompt (formula : json) : string :=
  "This is the formula which I want to apply for market modeling:" ++ nl ++ nl
  ++ py_str formula ++ nl ++ nl
  ++ "Create a JSON of all the components of the formula." ++ nl ++ nl
  ++ "For each component, find different sources that can be used to find the data point." ++ nl ++ nl
  ++ "Please return a JSON with the following fields:" ++ nl ++ nl
  ++ "components: list of component_data objects" ++ nl
  ++ "component_data objects:" ++ nl
  ++ "  -- component: name of component" ++ nl
  ++ "  -- data_sources: list of data source objects with fields:" ++ nl
  ++ "       -- DATA_COMPONENT: component name" ++ nl
  ++ "       -- DATA_SOURCE_NAME: name of data source" ++ nl
  ++ "       -- DATA_SOURCE_LINK: link to data source" ++ nl
  ++ "       -- DATA_SOURCE_OVERVIEW: text description/preview of data source" ++ nl
  ++ "       -- DATA_POINT: numeric data value for the component".

Definition exa_synthesis_prompt (text component : json) : string :=
  "The following text is from a data source:" ++ nl ++ py_str text ++ nl ++ nl
  ++ "Please extract a numeric data point for " ++ py_str component ++ "." ++ nl
  ++ "Then provide a short summary of the text as condensed as possible." ++ nl ++ nl
  ++ "Please return the response in JSON format with the following structure:" ++ nl ++ nl
  ++ "DATA_POINT: numeric data point for the component" ++ nl
  ++ "DATA_SOURCE_OVERVIEW: a short summary of the text, providing an overview of the information contained in the text.".

Definition decompose_formula_prompt (formula : json) : string :=
  "I have a market size formula: " ++ py_str formula ++ nl ++ nl
  ++ "Decompose the formula into each individual component / data." ++ nl ++ nl
  ++ "Return this as a JSON with the following fields:" ++ nl ++ nl
  ++ "components : list of strings, each string is the name of a component.".

(** A static method together with the names of its parameters.  None of
    the five has a default value, [*args] or [**kwargs]. *)
Inductive staticmethod : Type :=
| Unary (p : string) (f : json -> string)
| Binary (p1 p2 : string) (f : json -> json -> string).

Definition parameters (m : staticmethod) : list string :=
  match m with
  | Unary p _ => [p]
  | Binary p1 p2 _ => [p1; p2]
  end.

(** The keyword arguments given in a call, in the order written. *)
Definition kwargs : Type := list (string * json).

Fixpoint has_duplicate (l : list string) : bool :=
  match l with
  | [] => false
  | x :: l' => existsb (String.eqb x) l' || has_duplicate l'
  end.

(** A call of [m] with the keyword arguments [kw]: Python binds every keyword to the parameter of that name and
    raises [TypeError] for a repeated keyword, a keyword that names no
    parameter and a parameter left without a value. *)
Definition call_with_kwargs (m : staticmethod) (kw : kwargs) : exn + string :=
  if has_duplicate (map fst kw) then inl TypeError
  else if negb (forallb (fun k => existsb (String.eqb k) (parameters m)) (map fst kw))
  then inl TypeError
  else
    match m with
    | Unary p f =>
        match dict_get kw p with
        | Some a => inr (f a)
        | None => inl TypeError
        end
    | Binary p1 p2 f =>
        match dict_get kw p1, dict_get kw p2 with
        | Some a, Some b => inr (f a b)
        | _, _ => inl TypeError
        end
    end.

Definition router : dict staticmethod :=
  dict_of_items
    [ ("clarifying_questions_prompt", Unary "market_description" clarifying_questions_prompt);
      ("formula_brainstorm_prompt", Unary "market_description" formula_brainstorm_prompt);
      ("datasource_prompt", Unary "formula" datasource_prompt);
      ("exa_synthesis_prompt", Binary "text" "component" exa_synthesis_prompt);
      ("decompose_formula_prompt", Unary "formula" decompose_formula_prompt) ].

(** The signature is [get_prompt(cls, name, **kwargs)]: before the body
    runs, Python refuses a keyword that is given twice and a keyword named
    [cls] or [name], which would give that parameter a second value. *)
Definition clashes_with_signature (kw : kwargs) : bool :=
  has_duplicate (map fst kw)
  || existsb (fun k => String.eqb k "cls" || String.eqb k "name") (map fst kw).

Definition get_prompt (name : string) (kw : kwargs) : exn + string :=
  if clashes_with_signature kw then inl TypeError
  else
    match dict_get router name with
    | None =>
        inl (ValueError ("Unknown prompt name '" ++ name ++ "'. Valid options: "
                         ++ repr_identifier_list (dict_keys router)))
    | Some m => call_with_kwargs m kw
    end.

End Templates.
End PromptFactory.

(* ===================================================================== *)
(** * The world outside the interpreter *)
(* ===================================================================== *)

(** One search citation, as the attributes [getattr] reads: [None] is an
    attribute that is missing or holds [None]. *)
Record Citation : Type := {
  title : option string;
  url : option string;
  text : option string
}.

(** The object [exa.answer] returns. *)
Record AnswerResponse : Type := {
  answer : string;
  citations : list Citation
}.

(** A [requests.Response]. *)
Record Response : Type := {
  status_code : Z;
  body : string
}.

(** The collaborators of the workflow.  [world] is whatever the outside
    keeps between calls, so two calls with the same arguments may answer
    differently.  [start_order] is the order in which the pool's workers get
    to make their request, [as_completed] the order in which the futures are
    handed back; both only rearrange. *)
Class Services : Type := {
  world : Type;
  requests_post : string -> dict string -> json -> world -> world * (exn + Response);
  exa_answer : string -> world -> world * (exn + AnswerResponse);
  start_order : forall A : Type, list A -> list A;
  as_completed : forall A : Type, list A -> list A;
  start_order_perm : forall (A : Type) (l : list A), Permutation l (start_order l);
  as_completed_perm : forall (A : Type) (l : list A), Permutation l (as_completed l)
}.

(** A line written by [print], the values of its holes kept as they are. *)
Inductive log_line : Type :=
| LogComponents (components : list string)
| LogProcessing (component : string)
| LogCompleted (component : string)
| LogFailed (component : string) (e : exn)
| LogAllComplete
| LogRunningSearch (query : string)
| LogRetrieved (n : nat)
| LogStartingExtraction
| LogExtractionComplete
| LogUnexpectedComponents (components : json).

(* ===================================================================== *)
(** * The monad of Python code *)
(* ===================================================================== *)

Section Monad.
Context `{Services}.

Record state : Type := {
  outside : world;
  stdout : list log_line
}.

(** A computation returns normally ([inr]) or raises ([inl]); the state it
    has reached is kept either way. *)
Definition M (A : Type) : Type := state -> state * (exn + A).

Definition ret {A} (a : A) : M A := fun s => (s, inr a).

Definition raise {A} (e : exn) : M A := fun s => (s, inl e).

Definition bind {A B} (c : M A) (k : A -> M B) : M B :=
  fun s =>
    match c s with
    | (s', inr a) => k a s'
    | (s', inl e) => (s', inl e)
    end.

(** [try: c  except Exception as e: h(e)]. *)
Definition try_except {A} (c : M A) (h : exn -> M A) : M A :=
  fun s =>
    match c s with
    | (s', inr a) => (s', inr a)
    | (s', inl e) => h e s'
    end.

(** A pure operation that may raise. *)
Definition lift {A} (r : exn + A) : M A := fun s => (s, r).

Definition print (l : log_line) : M unit :=
  fun s => ({| outside := outside s; stdout := stdout s ++ [l] |}, inr tt).

(** A call to a collaborator. *)
Definition call {A} (f : world -> world * (exn + A)) : M A :=
  fun s =>
    let (w', r) := f (outside s) in
    ({| outside := w'; stdout := stdout s |}, r).

End Monad.

Declare Scope py_scope.
Delimit Scope py_scope with py.
Notation "x <- c ;; k" := (bind c (fun x => k))
  (at level 61, c at next level, right associativity) : py_scope.
Notation "c ;; k" := (bind c (fun _ => k))
  (at level 61, right associativity) : py_scope.
Open Scope py_scope.

(* ===================================================================== *)
(** * Operations on Python values *)
(* ===================================================================== *)

(** [obj[key]] for a [str] key. *)
Definition getitem_str (obj : json) (key : string) : exn + json :=
  match obj with
  | JObject d =>
      match dict_get d key with
      | Some v => inr v
      | None => inl KeyError
      end
  | _ => inl TypeError
  end.

(** [obj[0]]. *)
Definition getitem_0 (obj : json) : exn + json :=
  match obj with
  | JArray (x :: _) => inr x
  | JArray [] => inl IndexError
  | JString (String c _) => inr (JString (String c EmptyString))
  | JString EmptyString => inl IndexError
  | JObject _ => inl KeyError
  | _ => inl TypeError
  end.

(** [obj.get(key, default)]: only a dict has the method. *)
Definition get_method (obj : json) (key : string) (default : json) : exn + json :=
  match obj with
  | JObject d => inr (dict_get_default d key default)
  | _ => inl AttributeError
  end.

(** [json.loads(v)]. *)
Definition loads `{Builtins} (v : json) : exn + json :=
  match v with
  | JString s =>
      match json_loads s with
      | Some j => inr j
      | None => inl JSONDecodeError
      end
  | _ => inl TypeError
  end.

(** [d | v] for a dict [d]. *)
Definition or_operator (d : dict json) (v : json) : exn + dict json :=
  match v with
  | JObject d' => inr (dict_or d d')
  | _ => inl TypeError
  end.

(** [response.raise_for_status()]. *)
Definition raise_for_status (response : Response) : exn + unit :=
  if ((400 <=? status_code response) && (status_code response <? 600))%Z
  then inl (HTTPError (status_code response))
  else inr tt.

(** [response.json()]. *)
Definition json_method `{Builtins} (response : Response) : exn + json :=
  loads (JString (body response)).

(** [getattr(citation, attr, default)].  The code passes [None] as the
    default, so a missing attribute and one that holds [None] read alike. *)
Definition getattr (c : Citation) (attr : string) (default : json) : json :=
  let field :=
    if String.eqb attr "title" then title c
    else if String.eqb attr "url" then url c
    else if String.eqb attr "text" then text c
    else None in
  match field with
  | Some s => JString s
  | None => default
  end.

(* ===================================================================== *)
(** * research_sequence_task.py *)
(* ===================================================================== *)

Module ResearchSequenceTask.

(** The fields of [self] that the methods read. *)
Record Task : Type := {
  EXA_API_KEY : json;
  api_key : json;
  system_message : string
}.

(** [__init__]: the keys come from the environment. *)
Definition init (getenv : string -> json) : Task :=
  {| EXA_API_KEY := getenv "EXA_API_KEY";
     api_key := getenv "OPENAI_API_KEY";
     system_message :=
       "You are a professional market sizing assistant. "
       ++ "Your role is to design clear, structured models for market sizing problems, "
       ++ "identify and list the key data inputs needed, and suggest possible data sources or proxies "
       ++ "when direct data is unavailable. Always present your answers in a structured deconstructed format." |}.

(** What [run_exa_workflow] returns: one merged dict per citation. *)
Definition DataSourceRecord : Type := dict json.

(** A value of the batch mapping: the list of records, or [None]. *)
Definition ComponentResult : Type := option (list DataSourceRecord).

Section Methods.
Context `{Builtins} `{Services}.
Variable self : Task.

Definition chat_response (prompt : string) (response_json : bool) : M json :=
  let url := "https://api.openai.com/v1/chat/completions" in
  let headers :=
    dict_of_items
      [ ("Authorization", "Bearer " ++ py_str (api_key self));
        ("Content-Type", "application/json") ] in
  let data :=
    dict_of_items
      [ ("model", JString "gpt-4o");
        ("messages",
         JArray
           [ JObject (dict_of_items [ ("role", JString "system");
                                      ("content", JString (system_message self)) ]);
             JObject (dict_of_items [ ("role", JString "user");
                                      ("content", JString prompt) ]) ]) ] in
  let data :=
    if response_json
    then dict_set data "response_format"
           (JObject (dict_of_items [ ("type", JString "json_object") ]))
    else data in
  response <- call (requests_post url headers (JObject data)) ;;
  lift (raise_for_status response) ;;
  result <- lift (json_method response) ;;
  choices <- lift (getitem_str result "choices") ;;
  choice <- lift (getitem_0 choices) ;;
  message <- lift (getitem_str choice "message") ;;
  lift (getitem_str message "content").

Definition get_clarifying_questions (market_description : string) : M json :=
  prompt <- lift (PromptFactory.get_prompt "clarifying_questions_prompt"
                    [ ("market_description", JString market_description) ]) ;;
  chat_response prompt false.

Definition generate_market_formulas (market_description : string) : M json :=
  prompt <- lift (PromptFactory.get_prompt "formula_brainstorm_prompt"
                    [ ("market_description", JString market_description) ]) ;;
  response <- chat_response prompt true ;;
  data <- lift (loads response) ;;
  lift (get_method data "formula" (JArray [])).

Definition find_data_for_formula (formula : string) : M json :=
  prompt <- lift (PromptFactory.get_prompt "datasource_prompt"
                    [ ("formula", JString formula) ]) ;;
  response <- chat_response prompt true ;;
  lift (loads response).

Definition get_components_from_formula (formula : string) : M (list json) :=
  prompt <- lift (PromptFactory.get_prompt "decompose_formula_prompt"
                    [ ("formula", JString formula) ]) ;;
  response <- chat_response prompt true ;;
  data <- lift (loads response) ;;
  components <- lift (get_method data "components" (JArray [])) ;;
  match components with
  | JArray l => ret l
  | _ =>
      print (LogUnexpectedComponents components) ;;
      ret []
  end.

Definition exa_search (query : string) : M AnswerResponse :=
  call (exa_answer query).

(** The dict comprehension over [mapping.items()]. *)
Definition data_source_of (exa_answer_result : Citation) : dict json :=
  let mapping :=
    dict_of_items
      [ ("title", "DATA_SOURCE_NAME");
        ("url", "DATA_SOURCE_LINK");
        ("text", "DATA_SOURCE_TEXT") ] in
  dict_of_items
    (map (fun item => (snd item, getattr exa_answer_result (fst item) JNull)) mapping).

(** The keyword arguments handed to [get_prompt] for the synthesis prompt. *)
Definition synthesis_kwargs (exa_answer_result : Citation) (component : string)
  : PromptFactory.kwargs :=
  let data_source := data_source_of exa_answer_result in
  [ ("text", dict_get_default data_source "DATA_SOURCE_TEXT" (JString EmptyString));
    ("component", JString component) ].

Definition exa_data_extraction (exa_answer_result : Citation) (component : string)
  : M DataSourceRecord :=
  let data_source := data_source_of exa_answer_result in
  exa_synthesis_prompt <-
    lift (PromptFactory.get_prompt "exa_synthesis_prompt"
            (synthesis_kwargs exa_answer_result component)) ;;
  synthesis_response <- chat_response exa_synthesis_prompt true ;;
  synthesis_json <- lift (loads synthesis_response) ;;
  lift (or_operator
          (dict_or (dict_of_items [ ("component", JString component) ]) data_source)
          synthesis_json).

(** The pool runs every submitted call to its end, whatever the others do:
    leaving the [with] block waits for all of them.  Each call talks to the
    outside once, so the calls act on it one after the other in the order
    of their requests. *)
Fixpoint run_to_completion {A} (tasks : list (M A)) (s : state)
  : state * list (exn + A) :=
  match tasks with
  | [] => (s, [])
  | t :: tasks' =>
      let (s1, r) := t s in
      let (s2, rs) := run_to_completion tasks' s1 in
      (s2, r :: rs)
  end.

(** The outcomes of the futures, in the order [as_completed] yields them. *)
Definition completed_futures {A} (tasks : list (M A)) (s : state)
  : state * list (exn + A) :=
  let (s', outcomes) := run_to_completion (start_order tasks) s in
  (s', as_completed outcomes).

(** [for future in ...: results.append(future.result())]: the first future
    that holds an exception re-raises it. *)
Fixpoint collect_results {A} (outcomes : list (exn + A)) : exn + list A :=
  match outcomes with
  | [] => inr []
  | inl e :: _ => inl e
  | inr a :: outcomes' =>
      match collect_results outcomes' with
      | inl e => inl e
      | inr l => inr (a :: l)
      end
  end.

Definition parallel_exa_extraction (exa_results : list Citation) (component : string)
  : M (list DataSourceRecord) :=
  fun s =>
    let futures := map (fun result => exa_data_extraction result component) exa_results in
    let (s', outcomes) := completed_futures futures s in
    (s', collect_results outcomes).

Definition run_exa_workflow (query component : string) : M (list DataSourceRecord) :=
  print (LogRunningSearch query) ;;
  exa_result <- exa_search query ;;
  print (LogRetrieved (length (citations exa_result))) ;;
  print LogStartingExtraction ;;
  results <- parallel_exa_extraction (citations exa_result) component ;;
  print LogExtractionComplete ;;
  ret results.

(** The body of the [for] loop, on the dict built so far. *)
Definition process_component (all_results : dict ComponentResult) (component : string)
  : M (dict ComponentResult) :=
  print (LogProcessing component) ;;
  try_except
    (df <- run_exa_workflow component component ;;
     let all_results := dict_set all_results component (Some df) in
     print (LogCompleted component) ;;
     ret all_results)
    (fun e =>
       print (LogFailed component e) ;;
       ret (dict_set all_results component None)).

Fixpoint for_each_component (components : list string) (all_results : dict ComponentResult)
  : M (dict ComponentResult) :=
  match components with
  | [] => ret all_results
  | component :: rest =>
      all_results <- process_component all_results component ;;
      for_each_component rest all_results
  end.

Definition run_exa_workflow_for_components_sequential (components : list string)
  : M (dict ComponentResult) :=
  let all_results := empty in
  print (LogComponents components) ;;
  all_results <- for_each_component components all_results ;;
  print LogAllComplete ;;
  ret all_results.

End Methods.
End ResearchSequenceTask.

(* ===================================================================== *)
(** * lambda_function.py *)
(* ===================================================================== *)

(** [json.dumps] and the zero test of a float given by its literal come
    with the interpreter. *)
Class Runtime : Type := {
  json_dumps : json -> string;
  float_is_zero : string -> bool
}.

(** [type(v)]. *)
Inductive pytype : Type :=
| NoneType
| bool_type
| int_type
| float_type
| str_type
| list_type
| dict_type.

Definition type_of (v : json) : pytype :=
  match v with
  | JNull => NoneType
  | JBool _ => bool_type
  | JInt _ => int_type
  | JFloat _ => float_type
  | JString _ => str_type
  | JArray _ => list_type
  | JObject _ => dict_type
  end.

(** [bool(v)]. *)
Definition truthy `{Runtime} (v : json) : bool :=
  match v with
  | JNull => false
  | JBool b => b
  | JInt n => negb (n =? 0)%Z
  | JFloat literal => negb (float_is_zero literal)
  | JString s => negb (String.eqb s EmptyString)
  | JArray items => match items with [] => false | _ :: _ => true end
  | JObject members => match members with [] => false | _ :: _ => true end
  end.

(** [a or b]. *)
Definition or_else `{Runtime} (a b : json) : json :=
  if truthy a then a else b.

(** [v == s] for a [str] literal [s]. *)
Definition equals_str (v : json) (s : string) : bool :=
  match v with
  | JString t => String.eqb t s
  | _ => false
  end.

(** A line written by the handler, or by the task it calls. *)
Inductive handler_line : Type :=
| DbgFullEvent (event : json)
| DbgHttpMethod (v : json)
| DbgBodyType (t : pytype)
| DbgBodyContent (v : json)
| DbgQueryStringParameters (v : json)
| DbgParams (params : json)
| DbgAction (action : json)
| DbgProcessingDatasource
| DbgEventBody (v : json)
| DbgEventBodyType (t : pytype)
| DbgParsedBody (body : json)
| DbgJSONDecodeError (e : exn)
| DbgComponentsType (t : pytype)
| DbgComponents (components : json)
| TaskLine (l : log_line).

Module LambdaFunction.
Section Handler.
Context `{Builtins} `{Runtime} `{Services}.

(** The state of an invocation: the outside and everything printed. *)
Record invocation : Type := {
  reached : world;
  printed_lines : list handler_line
}.

Definition Handler (A : Type) : Type := invocation -> invocation * (exn + A).

Definition hret {A} (a : A) : Handler A := fun i => (i, inr a).

Definition hbind {A B} (c : Handler A) (k : A -> Handler B) : Handler B :=
  fun i =>
    match c i with
    | (i', inr a) => k a i'
    | (i', inl e) => (i', inl e)
    end.

Definition hlift {A} (r : exn + A) : Handler A := fun i => (i, r).

Definition hprint (l : handler_line) : Handler unit :=
  fun i => ({| reached := reached i; printed_lines := printed_lines i ++ [l] |}, inr tt).

(** [try: c  except json.JSONDecodeError as e: h(e)]: any other exception
    goes through. *)
Definition try_except_JSONDecodeError {A} (c : Handler A) (h : exn -> Handler A) : Handler A :=
  fun i =>
    match c i with
    | (i', inl JSONDecodeError) => h JSONDecodeError i'
    | (i', r) => (i', r)
    end.

(** A method of the task, run inside an invocation: its lines follow the
    lines printed so far. *)
Definition run_method {A} (c : M A) : Handler A :=
  fun i =>
    let (s', r) := c {| outside := reached i; stdout := [] |} in
    ({| reached := outside s';
        printed_lines := printed_lines i ++ map TaskLine (stdout s') |}, r).

(** The three methods the handler calls on the module's [task] object. *)
Record TaskObject : Type := {
  generate_market_formulas : json -> Handler json;
  get_components_from_formula : json -> Handler json;
  run_exa_workflow_for_components_sequential : list json -> Handler json
}.

Definition _response (status_code : Z) (body_dict : dict json) : json :=
  JObject
    (dict_of_items
       [ ("statusCode", JInt status_code);
         ("headers",
          JObject
            (dict_of_items
               [ ("Content-Type", JString "application/json");
                 ("Access-Control-Allow-Origin", JString "*");
                 ("Access-Control-Allow-Headers",
                  JString "Content-Type,X-Amz-Date,Authorization,X-Api-Key,X-Amz-Security-Token");
                 ("Access-Control-Allow-Methods", JString "GET,POST,OPTIONS") ]));
         ("body", JString (json_dumps (JObject body_dict))) ]).

Variable task : TaskObject.

Local Notation "x <- c ;; k" := (hbind c (fun x => k))
  (at level 61, c at next level, right associativity).
Local Notation "c ;; k" := (hbind c (fun _ => k))
  (at level 61, right associativity).

(** The [brainstorm] branch. *)
Definition brainstorm (params : json) : Handler json :=
  market_description <- hlift (get_method params "market_description" JNull) ;;
  if negb (truthy market_description)
  then hret (_response 400
               (dict_of_items
                  [ ("error", JString "Missing 'market_description' for brainstorm action") ]))
  else
    formulas <- generate_market_formulas task market_description ;;
    hret (_response 200 (dict_of_items [ ("formulas", formulas) ])).

(** The [decompose] branch. *)
Definition decompose (params : json) : Handler json :=
  formula <- hlift (get_method params "formula" JNull) ;;
  if negb (truthy formula)
  then hret (_response 400
               (dict_of_items [ ("error", JString "Missing 'formula' for decompose action") ]))
  else
    components <- get_components_from_formula task formula ;;
    hret (_response 200 (dict_of_items [ ("components", components) ])).

(** The [datasource] branch.  The [try] block either gives the parsed body
    ([inr]) or leaves the handler with a response ([inl]). *)
Definition datasource (event : json) : Handler json :=
  hprint DbgProcessingDatasource ;;
  v <- hlift (get_method event "body" JNull) ;;
  hprint (DbgEventBody v) ;;
  v <- hlift (get_method event "body" JNull) ;;
  hprint (DbgEventBodyType (type_of v)) ;;
  parsed <-
    try_except_JSONDecodeError
      (v <- hlift (get_method event "body" JNull) ;;
       body <- hlift (loads (or_else v (JString "{}"))) ;;
       hprint (DbgParsedBody body) ;;
       hret (inr body))
      (fun e =>
         hprint (DbgJSONDecodeError e) ;;
         hret (inl (_response 400
                      (dict_of_items [ ("error", JString "Invalid JSON in request body") ])))) ;;
  match parsed with
  | inl response => hret response
  | inr body =>
      components <- hlift (get_method body "components" JNull) ;;
      hprint (DbgComponentsType (type_of components)) ;;
      hprint (DbgComponents components) ;;
      match components with
      | JArray items =>
          datasources <- run_exa_workflow_for_components_sequential task items ;;
          hret (_response 200 (dict_of_items [ ("datasources", datasources) ]))
      | _ =>
          hret (_response 400
                  (dict_of_items
                     [ ("error", JString "'components' must be a list in the request body") ]))
      end
  end.

Definition lambda_handler (event context : json) : Handler json :=
  hprint (DbgFullEvent event) ;;
  v <- hlift (get_method event "httpMethod" JNull) ;;
  hprint (DbgHttpMethod v) ;;
  v <- hlift (get_method event "body" JNull) ;;
  hprint (DbgBodyType (type_of v)) ;;
  v <- hlift (get_method event "body" JNull) ;;
  hprint (DbgBodyContent v) ;;
  v <- hlift (get_method event "queryStringParameters" JNull) ;;
  hprint (DbgQueryStringParameters v) ;;
  method <- hlift (get_method event "httpMethod" JNull) ;;
  if equals_str method "OPTIONS"
  then hret (_response 200 (dict_of_items [ ("message", JString "OK") ]))
  else
    v <- hlift (get_method event "queryStringParameters" JNull) ;;
    let params := or_else v (JObject empty) in
    hprint (DbgParams params) ;;
    action <- hlift (get_method params "action" JNull) ;;
    if negb (truthy action)
    then hret (_response 400
                 (dict_of_items
                    [ ("error", JString "Missing required query parameter: action") ]))
    else
      hprint (DbgAction action) ;;
      if equals_str action "brainstorm" then brainstorm params
      else if equals_str action "decompose" then decompose params
      else if equals_str action "datasource" then datasource event
      else hret (_response 400
                   (dict_of_items
                      [ ("error", JString ("Unknown action: " ++ py_str action)) ])).

End Handler.

(** The [task] of the module: a [ResearchSequenceTask].  Its methods are
    modelled for string arguments; [beyond] stands for what they do on
    anything else. *)
Section ModuleTask.
Context `{Builtins} `{Runtime} `{Services}.
Variable self : ResearchSequenceTask.Task.
Variable beyond : TaskObject.

Fixpoint names_of (items : list json) : option (list string) :=
  match items with
  | [] => Some []
  | JString s :: items' =>
      match names_of items' with
      | Some names => Some (s :: names)
      | None => None
      end
  | _ :: _ => None
  end.

(** The batch dict as the value it is: [None] or the list of records under
    each component. *)
Definition datasources_value (all_results : dict ResearchSequenceTask.ComponentResult)
  : json :=
  JObject
    (map (fun item =>
            (fst item,
             match snd item with
             | Some df => JArray (map JObject df)
             | None => JNull
             end))
       all_results).

Definition map_result {A B} (f : A -> B) (c : Handler A) : Handler B :=
  hbind c (fun a => hret (f a)).

Definition module_task : TaskObject :=
  {| generate_market_formulas := fun market_description =>
       match market_description with
       | JString s => run_method (ResearchSequenceTask.generate_market_formulas self s)
       | _ => generate_market_formulas beyond market_description
       end;
     get_components_from_formula := fun formula =>
       match formula with
       | JString s =>
           map_result JArray
             (run_method (ResearchSequenceTask.get_components_from_formula self s))
       | _ => get_components_from_formula beyond formula
       end;
     run_exa_workflow_for_components_sequential := fun components =>
       match names_of components with
       | Some names =>
           map_result datasources_value
             (run_method
                (ResearchSequenceTask.run_exa_workflow_for_components_sequential self names))
       | None => run_exa_workflow_for_components_sequential beyond components
       end |}.

End ModuleTask.
End LambdaFunction.

(* ===================================================================== *)
(** * A scripted outside, for running the model *)
(* ===================================================================== *)

Module Script.

Definition quote : string := String (ascii_of_nat 34) EmptyString.
Definition backslash : string := String (ascii_of_nat 92) EmptyString.

(** A JSON string literal for a text of printable ASCII characters. *)
Fixpoint escaped (s : string) : string :=
  match s with
  | EmptyString => EmptyString
  | String c s' =>
      if Ascii.eqb c (ascii_of_nat 34) then backslash ++ quote ++ escaped s'
      else if Ascii.eqb c (ascii_of_nat 92) then backslash ++ backslash ++ escaped s'
      else String c (escaped s')
  end.

Definition literal (s : string) : string := quote ++ escaped s ++ quote.

(** The body of a chat completion whose message content is [content], and
    the value [json.loads] gives for it. *)
Definition completion_body (content : string) : string :=
  "{" ++ literal "choices" ++ ": [{" ++ literal "message" ++ ": {"
  ++ literal "content" ++ ": " ++ literal content ++ "}}]}".

Definition completion_value (content : string) : json :=
  JObject [ ("choices",
             JArray [ JObject [ ("message", JObject [ ("content", JString content) ]) ] ]) ].

(** Replies a model may give when asked for a JSON object. *)
Definition empty_object : string := "{}".
Definition empty_array : string := "[]".
Definition synthesis_reply : string :=
  "{" ++ literal "DATA_POINT" ++ ": 42, " ++ literal "DATA_SOURCE_OVERVIEW" ++ ": "
  ++ literal "census table" ++ "}".
Definition components_reply : string :=
  "{" ++ literal "components" ++ ": [" ++ literal "Number of cities" ++ ", "
  ++ literal "Population per city" ++ "]}".
Definition components_as_text_reply : string :=
  "{" ++ literal "components" ++ ": " ++ literal "Number of cities" ++ "}".

(** What [json.loads] answers on those replies. *)
Definition documents : list (string * json) :=
  [ (empty_object, JObject []);
    (empty_array, JArray []);
    (synthesis_reply,
     JObject [ ("DATA_POINT", JInt 42); ("DATA_SOURCE_OVERVIEW", JString "census table") ]);
    (components_reply,
     JObject [ ("components",
                JArray [ JString "Number of cities"; JString "Population per city" ]) ]);
    (components_as_text_reply,
     JObject [ ("components", JString "Number of cities") ]) ].

(** [json.loads] restricted to the texts the examples use: the replies
    above and the completion bodies that carry them.  The examples send no
    other text. *)
Definition table_loads (s : string) : option json :=
  match dict_get documents s with
  | Some v => Some v
  | None =>
      match find (fun d => String.eqb (completion_body (fst d)) s) documents with
      | Some d => Some (completion_value (fst d))
      | None => None
      end
  end.

#[export] Instance builtins : Builtins := {
  json_loads := table_loads;
  py_repr := fun _ => "<repr>"
}.

(** The outside: the HTTP replies still to come, and the requests seen so
    far. *)
Record scripted_world : Type := {
  replies : list (exn + Response);
  posted : list json
}.

Definition scripted_post (url : string) (headers : dict string) (data : json)
    (w : scripted_world) : scripted_world * (exn + Response) :=
  match replies w with
  | [] =>
      ({| replies := []; posted := posted w ++ [data] |},
       inl (OtherException "ConnectionError"))
  | r :: rest => ({| replies := rest; posted := posted w ++ [data] |}, r)
  end.

(** A search that answers by query; futures are handed back last first. *)
#[export] Instance services (search : string -> exn + AnswerResponse) : Services := {
  world := scripted_world;
  requests_post := scripted_post;
  exa_answer := fun query w => (w, search query);
  start_order := fun A l => l;
  as_completed := fun A l => rev l;
  start_order_perm := fun A l => Permutation_refl l;
  as_completed_perm := fun A l => Permutation_rev l
}.

Definition ok (content : string) : exn + Response :=
  inr {| status_code := 200; body := completion_body content |}.

Definition task : ResearchSequenceTask.Task :=
  ResearchSequenceTask.init (fun _ => JString "key").

Definition start (search : string -> exn + AnswerResponse) (script : list (exn + Response))
  : @state (services search) :=
  @Build_state (services search) {| replies := script; posted := [] |} [].

Definition report : Citation :=
  {| title := Some "City report"; url := Some "https://example.org/report";
     text := Some "There are 310 cities." |}.

(** A citation whose text the search could not provide. *)
Definition report_without_text : Citation :=
  {| title := Some "City report"; url := Some "https://example.org/report";
     text := None |}.

(** The search fails for [BadComponent] and finds nothing for [Nothing]. *)
Definition search (query : string) : exn + AnswerResponse :=
  if String.eqb query "BadComponent" then inl (OtherException "ExaError")
  else if String.eqb query "Nothing" then inr {| answer := "none"; citations := [] |}
  else inr {| answer := "310"; citations := [report; report_without_text] |}.

End Script.

#[local] Existing Instance Script.builtins.

(* ===================================================================== *)
(** * A scripted invocation of the handler *)
(* ===================================================================== *)

Module ScriptedHandler.

(** The examples never look inside a serialized body and send no float. *)
#[export] Instance runtime : Runtime := {
  json_dumps := fun _ => "<json>";
  float_is_zero := fun _ => false
}.

(** The examples pass strings only; beyond them nothing is answered. *)
Definition beyond : @LambdaFunction.TaskObject (Script.services Script.search) :=
  {| LambdaFunction.generate_market_formulas := fun _ =>
       LambdaFunction.hlift (inl (OtherException "NotModelled"));
     LambdaFunction.get_components_from_formula := fun _ =>
       LambdaFunction.hlift (inl (OtherException "NotModelled"));
     LambdaFunction.run_exa_workflow_for_components_sequential := fun _ =>
       LambdaFunction.hlift (inl (OtherException "NotModelled")) |}.

Definition task : @LambdaFunction.TaskObject (Script.services Script.search) :=
  LambdaFunction.module_task Script.task beyond.

(** An API Gateway event. *)
Definition event (method : string) (query : dict json) (body : json) : json :=
  JObject
    [ ("httpMethod", JString method);
      ("queryStringParameters", JObject query);
      ("body", body) ].

Definition start (script : list (exn + Response))
  : @LambdaFunction.invocation (Script.services Script.search) :=
  @LambdaFunction.Build_invocation (Script.services Script.search)
    {| Script.replies := script; Script.posted := [] |} [].

(** A request body naming two components. *)
Definition two_components : string :=
  "{" ++ Script.literal "components" ++ ": [" ++ Script.literal "Nothing" ++ ", "
  ++ Script.literal "BadComponent" ++ "]}".

(** [json.loads] that also knows this body. *)
Definition builtins : Builtins :=
  {| json_loads := fun s =>
       if String.eqb s two_components
       then Some (JObject [ ("components",
                             JArray [ JString "Nothing"; JString "BadComponent" ]) ])
       else Script.table_loads s;
     py_repr := fun _ => "<repr>" |}.

End ScriptedHandler.

#[local] Existing Instance ScriptedHandler.runtime.

(* ===================================================================== *)
(** * Vocabulary of the properties *)
(* ===================================================================== *)

(** [part] is a substring of [whole]. *)
Definition occurs_in (part whole : string) : Prop :=
  exists before after, whole = before ++ part ++ after.

(** The recognized template identifiers. *)
Definition template_names : list string :=
  [ "clarifying_questions_prompt"; "formula_brainstorm_prompt"; "datasource_prompt";
    "exa_synthesis_prompt"; "decompose_formula_prompt" ].

(** The named arguments a template requires: the parameters of the method
    the router holds for it. *)
Definition required_arguments `{Builtins} (name : string) : list string :=
  match dict_get PromptFactory.router name with
  | Some m => PromptFactory.parameters m
  | None => []
  end.

(** The distinct elements of a list, each at the place of its first
    occurrence. *)
Fixpoint first_occurrences_from (seen l : list string) : list string :=
  match l with
  | [] => []
  | x :: l' =>
      if existsb (String.eqb x) seen then first_occurrences_from seen l'
      else x :: first_occurrences_from (x :: seen) l'
  end.

Definition first_occurrences (l : list string) : list string :=
  first_occurrences_from [] l.

(** What the batch records for the outcome of one component's run. *)
Definition recorded {A} (outcome : exn + A) : option A :=
  match outcome with
  | inr df => Some df
  | inl _ => None
  end.

(** The state after one more printed line. *)
Definition printed `{Services} (s : state) (l : log_line) : state :=
  {| outside := outside s; stdout := stdout s ++ [l] |}.

(** The exception of the first future that holds one. *)
Fixpoint first_exception {A} (outcomes : list (exn + A)) : option exn :=
  match outcomes with
  | [] => None
  | inl e :: _ => Some e
  | inr _ :: outcomes' => first_exception outcomes'
  end.

(** What [getattr(citation, attr, None)] reads from a field. *)
Definition attribute_value (field : option string) : json :=
  match field with
  | Some s => JString s
  | None => JNull
  end.

(** The state in which the pool starts: the search has answered, leaving
    the outside as [w], and the three lines before the extraction are
    printed. *)
Definition after_search `{Services} (s : state) (query : string) (w : world) (n : nat)
  : state :=
  printed
    (printed {| outside := w; stdout := stdout (printed s (LogRunningSearch query)) |}
       (LogRetrieved n))
    LogStartingExtraction.

(** The state after the line that closes the processing of a component. *)
Definition after_component `{Services} {A} (s : state) (component : string)
    (outcome : exn + A) : state :=
  printed s
    match outcome with
    | inr _ => LogCompleted component
    | inl e => LogFailed component e
    end.

(** The request [chat_response] posts: where to, with which headers and
    which JSON payload. *)
Definition chat_url : string := "https://api.openai.com/v1/chat/completions".

Definition chat_headers `{Builtins} (self : ResearchSequenceTask.Task) : dict string :=
  [ ("Authorization", "Bearer " ++ py_str (ResearchSequenceTask.api_key self));
    ("Content-Type", "application/json") ].

Definition chat_messages (self : ResearchSequenceTask.Task) (prompt : string) : json :=
  JArray
    [ JObject [ ("role", JString "system");
                ("content", JString (ResearchSequenceTask.system_message self)) ];
      JObject [ ("role", JString "user"); ("content", JString prompt) ] ].

Definition chat_payload (self : ResearchSequenceTask.Task) (prompt : string)
    (response_json : bool) : json :=
  JObject
    ([ ("model", JString "gpt-4o"); ("messages", chat_messages self prompt) ]
     ++ (if response_json
         then [ ("response_format", JObject [ ("type", JString "json_object") ]) ]
         else []))%list.

(** The components named by the lines that open the processing of a
    component, and by the lines that close it ([true] for a completed
    workflow, [false] for a failed one), in the order printed. *)
Fixpoint processing_order (lines : list log_line) : list string :=
  match lines with
  | [] => []
  | LogProcessing component :: lines' => component :: processing_order lines'
  | _ :: lines' => processing_order lines'
  end.

Fixpoint closing_order (lines : list log_line) : list (string * bool) :=
  match lines with
  | [] => []
  | LogCompleted component :: lines' => (component, true) :: closing_order lines'
  | LogFailed component _ :: lines' => (component, false) :: closing_order lines'
  | _ :: lines' => closing_order lines'
  end.

(** A computation that only appends to the output: started after [out], it
    does what it does started after nothing, and prints behind [out]. *)
Definition appends_only `{Services} {A} (c : M A) : Prop :=
  forall w out,
    c {| outside := w; stdout := out |} =
      (let (s', r) := c {| outside := w; stdout := [] |} in
       ({| outside := outside s'; stdout := out ++ stdout s' |}, r)).

(** [event.get(k)] on an event that is a dict, and the two things the
    handler derives from it first. *)
Definition event_get (e : dict json) (k : string) : json := dict_get_default e k JNull.

Definition is_preflight (e : dict json) : bool :=
  equals_str (event_get e "httpMethod") "OPTIONS".

Definition query_parameters `{Runtime} (e : dict json) : json :=
  or_else (event_get e "queryStringParameters") (JObject empty).

(** The text [json.loads] is given in the [datasource] branch. *)
Definition request_body `{Runtime} (e : dict json) : json :=
  or_else (event_get e "body") (JString "{}").

(** The invocation after some more lines. *)
Definition with_lines `{Services} (i : LambdaFunction.invocation)
    (lines : list handler_line) : LambdaFunction.invocation :=
  fold_left
    (fun i l =>
       {| LambdaFunction.reached := LambdaFunction.reached i;
          LambdaFunction.printed_lines := LambdaFunction.printed_lines i ++ [l] |})
    lines i.

(** What the handler has printed when it calls the task for [brainstorm]
    or [decompose]. *)
Definition lines_before_action (e : dict json) (params action : json)
  : list handler_line :=
  [ DbgFullEvent (JObject e);
    DbgHttpMethod (event_get e "httpMethod");
    DbgBodyType (type_of (event_get e "body"));
    DbgBodyContent (event_get e "body");
    DbgQueryStringParameters (event_get e "queryStringParameters");
    DbgParams params;
    DbgAction action ].

(** What the handler has printed when it calls the task for
    [datasource]. *)
Definition lines_before_batch (e : dict json) (params body components : json)
  : list handler_line :=
  (lines_before_action e params (JString "datasource")
   ++ [ DbgProcessingDatasource;
        DbgEventBody (event_get e "body");
        DbgEventBodyType (type_of (event_get e "body"));
        DbgParsedBody body;
        DbgComponentsType (type_of components);
        DbgComponents components ])%list.

(* ===================================================================== *)
(** * Facts about strings and dictionaries *)
(* ===================================================================== *)

Unset Implicit Arguments.

Lemma append_assoc (a b c : string) : (a ++ b) ++ c = a ++ b ++ c.
Proof.
  induction a as [|ch a IH]; simpl; [reflexivity|].
  now rewrite IH.
Qed.

Lemma occurs_in_suffix (part prefix whole : string) :
  occurs_in part whole -> occurs_in part (prefix ++ whole).
Proof.
  intros (before & after & ->).
  exists (prefix ++ before), after.
  now rewrite append_assoc.
Qed.

Lemma existsb_eqb_In (x : string) (l : list string) :
  existsb (String.eqb x) l = true <-> In x l.
Proof.
  rewrite existsb_exists. split.
  - intros (y & Hy & E). apply String.eqb_eq in E. now subst.
  - intros Hx. exists x. split; [assumption | apply String.eqb_refl].
Qed.

Lemma existsb_eqb_not_In (x : string) (l : list string) :
  existsb (String.eqb x) l = false <-> ~ In x l.
Proof.
  rewrite <- existsb_eqb_In. destruct (existsb (String.eqb x) l); split; congruence.
Qed.

Module DictFacts.
Section Facts.
Context {V : Type}.
Implicit Types (d : dict V) (k : string) (v : V).

Lemma dict_get_None d k : dict_get d k = None <-> ~ In k (dict_keys d).
Proof.
  induction d as [|[k' v'] d IH]; simpl.
  - tauto.
  - destruct (String.eqb_spec k' k) as [->|Hne].
    + split; [discriminate | intros Hn; exfalso; apply Hn; now left].
    + rewrite IH. tauto.
Qed.

Lemma dict_get_Some_In d k v : dict_get d k = Some v -> In k (dict_keys d).
Proof.
  intros E. destruct (in_dec string_dec k (dict_keys d)) as [Hin|Hn]; [assumption|].
  apply dict_get_None in Hn. congruence.
Qed.

Lemma dict_get_In d k : In k (dict_keys d) -> exists v, dict_get d k = Some v.
Proof.
  intros Hin. destruct (dict_get d k) as [v|] eqn:E; [now exists v|].
  apply dict_get_None in E. contradiction.
Qed.

Lemma dict_get_set_eq d k v : dict_get (dict_set d k v) k = Some v.
Proof.
  induction d as [|[k' v'] d IH]; simpl.
  - now rewrite String.eqb_refl.
  - destruct (String.eqb k' k) eqn:E; simpl; rewrite E; [reflexivity | exact IH].
Qed.

Lemma dict_get_set_neq d k k' v :
  k' <> k -> dict_get (dict_set d k v) k' = dict_get d k'.
Proof.
  intros Hne. induction d as [|[k0 v0] d IH]; simpl.
  - destruct (String.eqb_spec k k'); [congruence | reflexivity].
  - destruct (String.eqb_spec k0 k) as [->|Hk]; simpl.
    + destruct (String.eqb_spec k k'); [congruence | reflexivity].
    + now rewrite IH.
Qed.

Lemma dict_keys_set_old d k v :
  In k (dict_keys d) -> dict_keys (dict_set d k v) = dict_keys d.
Proof.
  induction d as [|[k0 v0] d IH]; simpl; [tauto|].
  intros Hin. destruct (String.eqb_spec k0 k) as [->|Hk]; simpl; [reflexivity|].
  f_equal. apply IH. destruct Hin; [contradiction | assumption].
Qed.

Lemma dict_keys_set_new d k v :
  ~ In k (dict_keys d) -> dict_keys (dict_set d k v) = (dict_keys d ++ [k])%list.
Proof.
  induction d as [|[k0 v0] d IH]; simpl; [reflexivity|].
  intros Hn. destruct (String.eqb_spec k0 k) as [->|Hk]; simpl.
  - exfalso. apply Hn. now left.
  - f_equal. apply IH. tauto.
Qed.

Lemma dict_get_or (a b : dict V) k :
  NoDup (dict_keys b) ->
  dict_get (dict_or a b) k =
    match dict_get b k with
    | Some v => Some v
    | None => dict_get a k
    end.
Proof.
  unfold dict_or. revert a.
  induction b as [|[k1 v1] b IH]; intros a Hnd; simpl; [reflexivity|].
  inversion Hnd as [|? ? Hnotin Hnd']; subst.
  rewrite IH by assumption.
  destruct (String.eqb_spec k1 k) as [->|Hne].
  - apply dict_get_None in Hnotin. rewrite Hnotin. apply dict_get_set_eq.
  - destruct (dict_get b k); [reflexivity|].
    apply dict_get_set_neq. congruence.
Qed.

End Facts.
End DictFacts.

Lemma append_nil_r (a : string) : a ++ EmptyString = a.
Proof.
  induction a as [|ch a IH]; simpl; [reflexivity | now rewrite IH].
Qed.

Lemma occurs_in_refl (s : string) : occurs_in s s.
Proof.
  exists EmptyString, EmptyString. simpl. now rewrite append_nil_r.
Qed.

Lemma occurs_in_prefix (part whole suffix : string) :
  occurs_in part whole -> occurs_in part (whole ++ suffix).
Proof.
  intros (before & after & ->).
  exists before, (after ++ suffix).
  now rewrite !append_assoc.
Qed.

Lemma occurs_in_trans (a b c : string) :
  occurs_in a b -> occurs_in b c -> occurs_in a c.
Proof.
  intros Hab (before & after & ->).
  apply occurs_in_suffix, occurs_in_prefix, Hab.
Qed.

Lemma occurs_in_join (sep x : string) (l : list string) :
  In x l -> occurs_in x (join sep l).
Proof.
  induction l as [|y l IH]; [intros []|].
  intros Hin. destruct l as [|z l].
  - destruct Hin as [->|[]]. apply occurs_in_refl.
  - change (join sep (y :: z :: l)) with (y ++ sep ++ join sep (z :: l)).
    destruct Hin as [->|Hin].
    + apply occurs_in_prefix, occurs_in_refl.
    + apply occurs_in_suffix, occurs_in_suffix, IH, Hin.
Qed.

Lemma occurs_in_repr_identifier_list (x : string) (l : list string) :
  In x l -> occurs_in x (repr_identifier_list l).
Proof.
  intros Hin. unfold repr_identifier_list.
  apply occurs_in_suffix, occurs_in_prefix.
  apply occurs_in_trans with (repr_identifier x).
  - unfold repr_identifier. apply occurs_in_suffix, occurs_in_prefix, occurs_in_refl.
  - apply occurs_in_join, in_map, Hin.
Qed.

Lemma has_duplicate_false (l : list string) :
  PromptFactory.has_duplicate l = false <-> NoDup l.
Proof.
  induction l as [|x l IH]; simpl.
  - split; [constructor | reflexivity].
  - rewrite orb_false_iff, IH, existsb_eqb_not_In. split.
    + intros [Hx Hl]. now constructor.
    + intros Hnd. inversion Hnd; subst. tauto.
Qed.

Section PromptFactoryFacts.
Context `{Builtins}.

Lemma router_keys : dict_keys PromptFactory.router = template_names.
Proof. reflexivity. Qed.

Lemma router_recognizes (name : string) :
  In name template_names -> exists m, dict_get PromptFactory.router name = Some m.
Proof.
  rewrite <- router_keys. apply DictFacts.dict_get_In.
Qed.

Lemma router_rejects (name : string) :
  ~ In name template_names -> dict_get PromptFactory.router name = None.
Proof.
  rewrite <- router_keys. apply DictFacts.dict_get_None.
Qed.

Lemma call_with_exact_kwargs (m : PromptFactory.staticmethod) (kw : PromptFactory.kwargs) :
  NoDup (map fst kw) ->
  (forall a, In a (map fst kw) <-> In a (PromptFactory.parameters m)) ->
  exists prompt, PromptFactory.call_with_kwargs m kw = inr prompt.
Proof.
  intros Hnd Hkeys. unfold PromptFactory.call_with_kwargs.
  apply has_duplicate_false in Hnd. rewrite Hnd.
  assert (Hall : forallb (fun k => existsb (String.eqb k) (PromptFactory.parameters m))
                   (map fst kw) = true).
  { apply forallb_forall. intros k Hk. apply existsb_eqb_In, Hkeys, Hk. }
  rewrite Hall. simpl.
  assert (Hget : forall p, In p (PromptFactory.parameters m) ->
                           exists a, dict_get kw p = Some a).
  { intros p Hp. apply DictFacts.dict_get_In. apply Hkeys, Hp. }
  destruct m as [p f | p1 p2 f]; simpl in Hget.
  - destruct (Hget p) as [a ->]; [now left|]. now exists (f a).
  - destruct (Hget p1) as [a ->]; [now left|].
    destruct (Hget p2) as [b ->]; [now right; left|]. now exists (f a b).
Qed.

Lemma call_with_missing_kwarg (m : PromptFactory.staticmethod) (kw : PromptFactory.kwargs)
    (a : string) :
  In a (PromptFactory.parameters m) -> ~ In a (map fst kw) ->
  PromptFactory.call_with_kwargs m kw = inl TypeError.
Proof.
  intros Hparam Hmissing. unfold PromptFactory.call_with_kwargs.
  destruct (PromptFactory.has_duplicate (map fst kw)); [reflexivity|].
  destruct (negb _); [reflexivity|].
  apply (DictFacts.dict_get_None kw) in Hmissing.
  destruct m as [p f | p1 p2 f]; simpl in Hparam.
  - destruct Hparam as [->|[]]. now rewrite Hmissing.
  - destruct Hparam as [->|[->|[]]].
    + now rewrite Hmissing.
    + rewrite Hmissing. now destruct (dict_get kw p1).
Qed.

Lemma clashes_with_signature_false (kw : PromptFactory.kwargs) :
  PromptFactory.clashes_with_signature kw = false <->
  NoDup (map fst kw) /\ ~ In "cls" (map fst kw) /\ ~ In "name" (map fst kw).
Proof.
  unfold PromptFactory.clashes_with_signature.
  rewrite orb_false_iff, has_duplicate_false. split.
  - intros [Hnd Hnone]. split; [assumption|].
    split; intros Hin.
    + assert (Hex : existsb (fun k => String.eqb k "cls" || String.eqb k "name")
                      (map fst kw) = true).
      { apply existsb_exists. exists "cls". split; [assumption | reflexivity]. }
      congruence.
    + assert (Hex : existsb (fun k => String.eqb k "cls" || String.eqb k "name")
                      (map fst kw) = true).
      { apply existsb_exists. exists "name". split; [assumption | reflexivity]. }
      congruence.
  - intros (Hnd & Hcls & Hname). split; [assumption|].
    destruct (existsb _ (map fst kw)) eqn:Hex; [|reflexivity].
    apply existsb_exists in Hex. destruct Hex as (k & Hk & Hclash).
    apply orb_true_iff in Hclash.
    destruct Hclash as [E|E]; apply String.eqb_eq in E; subst k; contradiction.
Qed.

Lemma router_entry (name : string) (m : PromptFactory.staticmethod) :
  dict_get PromptFactory.router name = Some m -> In (name, m) PromptFactory.router.
Proof.
  generalize PromptFactory.router.
  induction d as [|[k0 v0] d IH]; simpl; [discriminate|].
  destruct (String.eqb_spec k0 name) as [->|_].
  - intros [= ->]. now left.
  - intros Hd. right. now apply IH.
Qed.

Lemma router_parameters (name : string) (m : PromptFactory.staticmethod) :
  dict_get PromptFactory.router name = Some m ->
  ~ In "cls" (PromptFactory.parameters m) /\ ~ In "name" (PromptFactory.parameters m).
Proof.
  intros Hm. apply router_entry in Hm.
  repeat (destruct Hm as [Heq|Hm]; [injection Heq as _ <-; simpl; intuition discriminate|]).
  contradiction.
Qed.

End PromptFactoryFacts.

(* ===================================================================== *)
(** * Properties of the prompt registry *)
(* ===================================================================== *)

(** C8, amended. A name that is not one of the recognized template
    identifiers makes [get_prompt] fail with [ValueError] (the
    unknown-template error), and with no other kind of error, for every
    set of keyword arguments none of which is named [cls] or [name]; the
    message of the error contains every valid template name. *)
Theorem get_prompt_unknown_name `{Builtins} (name : string) (kw : PromptFactory.kwargs) :
  ~ In name template_names ->
  NoDup (map fst kw) ->
  ~ In "cls" (map fst kw) ->
  ~ In "name" (map fst kw) ->
  exists msg,
    PromptFactory.get_prompt name kw = inl (ValueError msg)
    /\ forall valid, In valid template_names -> occurs_in valid msg.
Proof.
  intros Hunknown Hnd Hcls Hnamed. unfold PromptFactory.get_prompt.
  rewrite (proj2 (clashes_with_signature_false kw) (conj Hnd (conj Hcls Hnamed))).
  rewrite (router_rejects name Hunknown). eexists. split; [reflexivity|].
  intros valid Hvalid. rewrite router_keys.
  do 3 apply occurs_in_suffix.
  now apply occurs_in_repr_identifier_list.
Qed.

Lemma get_prompt_unknown_name_witness :
  exists msg,
    PromptFactory.get_prompt (H := Script.builtins) "summary_prompt"
      [ ("text", JString "310 cities") ] = inl (ValueError msg)
    /\ forall valid, In valid template_names -> occurs_in valid msg.
Proof.
  apply (get_prompt_unknown_name (H := Script.builtins)).
  - unfold template_names. simpl. intros Hin.
    repeat (destruct Hin as [Hin|Hin]; [discriminate Hin|]). exact Hin.
  - simpl. repeat constructor. simpl. tauto.
  - simpl. intuition discriminate.
  - simpl. intuition discriminate.
Defined.

(** C8 as stated fails: with the keyword [name], a call for a template
    name that is not recognized raises [TypeError], not [ValueError]. *)
Lemma get_prompt_unknown_name_keyword_name :
  ~ In "summary_prompt" template_names
  /\ PromptFactory.get_prompt (H := Script.builtins) "summary_prompt"
       [ ("name", JString "datasource_prompt") ] = inl TypeError.
Proof.
  split; [|reflexivity].
  unfold template_names. simpl. intros Hin.
  repeat (destruct Hin as [Hin|Hin]; [discriminate Hin|]). exact Hin.
Qed.

(** C9. For a recognized template name, rendering with exactly its required
    named arguments succeeds and returns a string, and rendering without
    one of them raises [TypeError]; the brainstorm template requires
    [market_description], the datasource template [formula], the synthesis
    template [text] and [component]. *)
Theorem get_prompt_required_arguments `{Builtins} (name : string) :
  In name template_names ->
  (forall kw, NoDup (map fst kw) ->
     (forall a, In a (map fst kw) <-> In a (required_arguments name)) ->
     exists prompt, PromptFactory.get_prompt name kw = inr prompt)
  /\ (forall kw a, In a (required_arguments name) -> ~ In a (map fst kw) ->
        PromptFactory.get_prompt name kw = inl TypeError)
  /\ required_arguments "formula_brainstorm_prompt" = ["market_description"]
  /\ required_arguments "datasource_prompt" = ["formula"]
  /\ required_arguments "exa_synthesis_prompt" = ["text"; "component"].
Proof.
  intros Hname. destruct (router_recognizes name Hname) as [m Hm].
  destruct (router_parameters name m Hm) as [Hcls Hnamed].
  unfold PromptFactory.get_prompt, required_arguments. rewrite Hm.
  split; [|split; [|repeat split]].
  - intros kw Hnd Hsame.
    rewrite (proj2 (clashes_with_signature_false kw)).
    + now apply call_with_exact_kwargs.
    + split; [assumption|]. split; intros Hin; apply Hsame in Hin; contradiction.
  - intros kw a Hparam Hmissing.
    destruct (PromptFactory.clashes_with_signature kw); [reflexivity|].
    now apply (call_with_missing_kwarg m kw a).
Qed.

Lemma get_prompt_required_arguments_witness :
  (exists prompt,
     PromptFactory.get_prompt (H := Script.builtins) "exa_synthesis_prompt"
       [ ("component", JString "Number of cities"); ("text", JString "310 cities") ]
     = inr prompt)
  /\ PromptFactory.get_prompt (H := Script.builtins) "exa_synthesis_prompt"
       [ ("text", JString "310 cities") ] = inl TypeError.
Proof.
  assert (Hname : In "exa_synthesis_prompt" template_names)
    by (unfold template_names; simpl; tauto).
  destruct (get_prompt_required_arguments (H := Script.builtins) _ Hname)
    as (Hexact & Hmissing & _).
  split.
  - apply Hexact.
    + simpl. repeat constructor; simpl; intuition discriminate.
    + intros a. simpl. tauto.
  - apply (Hmissing _ "component").
    + simpl. tauto.
    + simpl. intuition discriminate.
Defined.

(* ===================================================================== *)
(** * Facts about the workflow *)
(* ===================================================================== *)

Lemma first_exception_In {A} (outcomes : list (exn + A)) (e : exn) :
  In (inl e) outcomes ->
  exists e', first_exception outcomes = Some e' /\ In (inl e') outcomes.
Proof.
  induction outcomes as [|[e0|a] outcomes IH]; simpl.
  - intros [].
  - intros _. exists e0. split; [reflexivity | now left].
  - intros [Habs|Hin]; [discriminate|].
    destruct (IH Hin) as (e' & Hfirst & Hin'). exists e'. split; [assumption | now right].
Qed.

Lemma first_exception_after_successes {A} (oks : list A) (e : exn)
    (rest : list (exn + A)) :
  first_exception (map inr oks ++ inl e :: rest)%list = Some e.
Proof.
  induction oks as [|a oks IH]; simpl; [reflexivity | exact IH].
Qed.

Lemma first_exception_None {A} (outcomes : list (exn + A)) :
  first_exception outcomes = None <-> forall e, ~ In (inl e) outcomes.
Proof.
  induction outcomes as [|[e0|a] outcomes IH]; simpl.
  - split; [intros _ e [] | reflexivity].
  - split; [discriminate | intros Hno; exfalso; apply (Hno e0); now left].
  - rewrite IH. split.
    + intros Hno e [Habs|Hin]; [discriminate | exact (Hno e Hin)].
    + intros Hno e Hin. apply (Hno e). now right.
Qed.

Section CollectFacts.
Context `{Builtins} `{Services}.

Lemma collect_results_raises {A} (outcomes : list (exn + A)) (e : exn) :
  first_exception outcomes = Some e ->
  ResearchSequenceTask.collect_results outcomes = inl e.
Proof.
  induction outcomes as [|[e0|a] outcomes IH]; simpl.
  - discriminate.
  - now intros [= ->].
  - intros Hfirst. now rewrite (IH Hfirst).
Qed.

Lemma collect_results_returns {A} (outcomes : list (exn + A)) :
  first_exception outcomes = None ->
  exists results,
    ResearchSequenceTask.collect_results outcomes = inr results
    /\ outcomes = map inr results.
Proof.
  induction outcomes as [|[e0|a] outcomes IH]; simpl.
  - intros _. now exists [].
  - discriminate.
  - intros Hnone. destruct (IH Hnone) as (results & -> & Hmap).
    exists (a :: results). simpl. now rewrite <- Hmap.
Qed.

Lemma run_to_completion_length {A} (tasks : list (M A)) (s : state) :
  length (snd (ResearchSequenceTask.run_to_completion tasks s)) = length tasks.
Proof.
  revert s. induction tasks as [|t tasks IH]; intros s; simpl; [reflexivity|].
  destruct (t s) as [s1 r].
  specialize (IH s1). destruct (ResearchSequenceTask.run_to_completion tasks s1) as [s2 rs].
  simpl in *. now rewrite IH.
Qed.

Lemma run_to_completion_In {A} (tasks : list (M A)) (s : state) (o : exn + A) :
  In o (snd (ResearchSequenceTask.run_to_completion tasks s)) ->
  exists t st, In t tasks /\ snd (t st) = o.
Proof.
  revert s. induction tasks as [|t tasks IH]; intros s; simpl; [intros []|].
  destruct (t s) as [s1 r] eqn:Et.
  specialize (IH s1). destruct (ResearchSequenceTask.run_to_completion tasks s1) as [s2 rs].
  simpl in *. intros [<-|Hin].
  - exists t, s. rewrite Et. split; [now left | reflexivity].
  - destruct (IH Hin) as (t' & st & Ht' & Ho). exists t', st. split; [now right | assumption].
Qed.

Lemma completed_futures_length {A} (tasks : list (M A)) (s : state) :
  length (snd (ResearchSequenceTask.completed_futures tasks s)) = length tasks.
Proof.
  unfold ResearchSequenceTask.completed_futures.
  pose proof (run_to_completion_length (start_order tasks) s) as Hlen.
  destruct (ResearchSequenceTask.run_to_completion (start_order tasks) s) as [s' outcomes].
  simpl in *.
  rewrite <- (Permutation_length (as_completed_perm outcomes)), Hlen.
  symmetry. apply Permutation_length, start_order_perm.
Qed.

Lemma completed_futures_In {A} (tasks : list (M A)) (s : state) (o : exn + A) :
  In o (snd (ResearchSequenceTask.completed_futures tasks s)) ->
  exists t st, In t tasks /\ snd (t st) = o.
Proof.
  unfold ResearchSequenceTask.completed_futures.
  pose proof (@run_to_completion_In A (start_order tasks) s o) as Hin.
  destruct (ResearchSequenceTask.run_to_completion (start_order tasks) s) as [s' outcomes].
  simpl in *. intros Ho.
  apply (Permutation_in o (Permutation_sym (as_completed_perm outcomes))) in Ho.
  destruct (Hin Ho) as (t & st & Ht & Hst). exists t, st. split; [|assumption].
  apply (Permutation_in t (Permutation_sym (start_order_perm tasks))), Ht.
Qed.

Lemma completed_futures_nil {A} (s : state) :
  ResearchSequenceTask.completed_futures (@nil (M A)) s = (s, []).
Proof.
  unfold ResearchSequenceTask.completed_futures.
  rewrite (Permutation_nil (start_order_perm (@nil (M A)))). simpl.
  now rewrite (Permutation_nil (as_completed_perm (@nil (exn + A)))).
Qed.

End CollectFacts.

Section WorkflowFacts.
Context `{Builtins} `{Services}.
Variable self : ResearchSequenceTask.Task.

Import ResearchSequenceTask.

Lemma data_source_of_fields (c : Citation) :
  data_source_of c =
    [ ("DATA_SOURCE_NAME", attribute_value (title c));
      ("DATA_SOURCE_LINK", attribute_value (url c));
      ("DATA_SOURCE_TEXT", attribute_value (text c)) ].
Proof. reflexivity. Qed.

Lemma synthesis_kwargs_fields (c : Citation) (component : string) :
  synthesis_kwargs c component =
    [ ("text", attribute_value (text c)); ("component", JString component) ].
Proof. reflexivity. Qed.

Lemma synthesis_prompt_renders (c : Citation) (component : string) :
  PromptFactory.get_prompt "exa_synthesis_prompt" (synthesis_kwargs c component) =
    inr (PromptFactory.exa_synthesis_prompt (attribute_value (text c)) (JString component)).
Proof. reflexivity. Qed.

Lemma decompose_prompt_renders (formula : string) :
  PromptFactory.get_prompt "decompose_formula_prompt" [ ("formula", JString formula) ] =
    inr (PromptFactory.decompose_formula_prompt (JString formula)).
Proof. reflexivity. Qed.

(** The extraction, read off the outcome of its one request. *)
Lemma exa_data_extraction_outcome (c : Citation) (component prompt : string)
    (s s' : state) (outcome : exn + json) :
  PromptFactory.get_prompt "exa_synthesis_prompt" (synthesis_kwargs c component) = inr prompt ->
  chat_response self prompt true s = (s', outcome) ->
  exa_data_extraction self c component s =
    (s',
     match outcome with
     | inl e => inl e
     | inr content =>
         match loads content with
         | inl e => inl e
         | inr synthesis_json =>
             or_operator
               (dict_or (dict_of_items [ ("component", JString component) ])
                  (data_source_of c))
               synthesis_json
         end
     end).
Proof.
  intros Hprompt Hchat. unfold exa_data_extraction.
  rewrite Hprompt. unfold bind at 1. unfold lift at 1. unfold bind at 1.
  rewrite Hchat. destruct outcome as [e|content]; [reflexivity|].
  unfold bind, lift. now destruct (loads content).
Qed.

Lemma get_components_outcome (formula prompt : string) (s s' : state)
    (outcome : exn + json) :
  PromptFactory.get_prompt "decompose_formula_prompt" [ ("formula", JString formula) ]
    = inr prompt ->
  chat_response self prompt true s = (s', outcome) ->
  get_components_from_formula self formula s =
    match outcome with
    | inl e => (s', inl e)
    | inr content =>
        match loads content with
        | inl e => (s', inl e)
        | inr data =>
            match get_method data "components" (JArray []) with
            | inl e => (s', inl e)
            | inr (JArray l) => (s', inr l)
            | inr components =>
                (printed s' (LogUnexpectedComponents components), inr [])
            end
        end
    end.
Proof.
  intros Hprompt Hchat. unfold get_components_from_formula.
  rewrite Hprompt. unfold bind at 1. unfold lift at 1. unfold bind at 1.
  rewrite Hchat. destruct outcome as [e|content]; [reflexivity|].
  unfold bind at 1. unfold lift at 1. destruct (loads content) as [e|data]; [reflexivity|].
  unfold bind at 1. unfold lift at 1.
  destruct (get_method data "components" (JArray [])) as [e|components]; [reflexivity|].
  destruct components; reflexivity.
Qed.

(** The run of one component, read off the answer of the search and the
    outcomes of the futures. *)
Lemma run_exa_workflow_search_fails (query component : string) (s : state)
    (w : world) (e : exn) :
  exa_answer query (outside s) = (w, inl e) ->
  run_exa_workflow self query component s =
    ({| outside := w; stdout := stdout (printed s (LogRunningSearch query)) |}, inl e).
Proof.
  intros Hsearch. unfold run_exa_workflow, bind, print, exa_search, call. simpl.
  now rewrite Hsearch.
Qed.

Lemma run_exa_workflow_outcome (query component : string) (s s2 : state)
    (w : world) (exa_result : AnswerResponse)
    (outcomes : list (exn + DataSourceRecord)) :
  exa_answer query (outside s) = (w, inr exa_result) ->
  completed_futures
    (map (fun result => exa_data_extraction self result component) (citations exa_result))
    (after_search s query w (length (citations exa_result))) = (s2, outcomes) ->
  run_exa_workflow self query component s =
    match collect_results outcomes with
    | inl e => (s2, inl e)
    | inr results => (printed s2 LogExtractionComplete, inr results)
    end.
Proof.
  intros Hsearch Hpool.
  unfold run_exa_workflow, bind, print, exa_search, call, parallel_exa_extraction.
  cbn [outside stdout]. rewrite Hsearch. cbn [outside stdout].
  unfold after_search, printed in Hpool. cbn [outside stdout] in Hpool.
  rewrite Hpool. now destruct (collect_results outcomes).
Qed.

Lemma process_component_outcome (all_results : dict ComponentResult)
    (component : string) (s s1 : state) (outcome : exn + list DataSourceRecord) :
  run_exa_workflow self component component (printed s (LogProcessing component))
    = (s1, outcome) ->
  process_component self all_results component s =
    (after_component s1 component outcome,
     inr (dict_set all_results component (recorded outcome))).
Proof.
  intros Hrun. unfold process_component, try_except. unfold bind at 1.
  unfold print at 1. unfold bind at 1. fold (printed s (LogProcessing component)).
  rewrite Hrun. now destruct outcome.
Qed.

Lemma process_component_returns (all_results : dict ComponentResult)
    (component : string) (s : state) :
  exists s' outcome,
    process_component self all_results component s =
      (s', inr (dict_set all_results component outcome)).
Proof.
  destruct (run_exa_workflow self component component (printed s (LogProcessing component)))
    as [s1 outcome] eqn:Hrun.
  rewrite (process_component_outcome all_results _ _ _ _ Hrun). eauto.
Qed.

Lemma for_each_component_cons (component : string) (rest : list string)
    (all_results : dict ComponentResult) (s s1 : state)
    (outcome : exn + list DataSourceRecord) :
  run_exa_workflow self component component (printed s (LogProcessing component))
    = (s1, outcome) ->
  for_each_component self (component :: rest) all_results s =
    for_each_component self rest
      (dict_set all_results component (recorded outcome))
      (after_component s1 component outcome).
Proof.
  intros Hrun. simpl. unfold bind at 1.
  now rewrite (process_component_outcome all_results _ _ _ _ Hrun).
Qed.

Lemma for_each_component_returns (components : list string)
    (all_results : dict ComponentResult) (s : state) :
  exists s' final, for_each_component self components all_results s = (s', inr final).
Proof.
  revert all_results s.
  induction components as [|c components IH]; intros all_results s.
  - now exists s, all_results.
  - destruct (run_exa_workflow self c c (printed s (LogProcessing c))) as [s1 outcome] eqn:Hrun.
    rewrite (for_each_component_cons _ _ _ _ _ _ Hrun). apply IH.
Qed.

Lemma for_each_component_app (pre post : list string)
    (all_results d1 : dict ComponentResult) (s s1 : state) :
  for_each_component self pre all_results s = (s1, inr d1) ->
  for_each_component self (pre ++ post)%list all_results s =
    for_each_component self post d1 s1.
Proof.
  revert all_results s.
  induction pre as [|c pre IH]; intros all_results s.
  - simpl. unfold ret. now intros [= -> ->].
  - destruct (run_exa_workflow self c c (printed s (LogProcessing c))) as [s0 outcome] eqn:Hrun.
    simpl app. rewrite !(for_each_component_cons _ _ _ _ _ _ Hrun). apply IH.
Qed.

End WorkflowFacts.

Lemma first_occurrences_from_ext (seen seen' l : list string) :
  (forall x, In x seen <-> In x seen') ->
  first_occurrences_from seen l = first_occurrences_from seen' l.
Proof.
  revert seen seen'. induction l as [|x l IH]; intros seen seen' Hsame; simpl.
  - reflexivity.
  - assert (E : existsb (String.eqb x) seen = existsb (String.eqb x) seen').
    { destruct (existsb (String.eqb x) seen') eqn:E'.
      - apply existsb_eqb_In, Hsame, existsb_eqb_In, E'.
      - apply existsb_eqb_not_In. rewrite Hsame. apply existsb_eqb_not_In, E'. }
    rewrite E. destruct (existsb (String.eqb x) seen').
    + now apply IH.
    + f_equal. apply IH. intros y. simpl. rewrite Hsame. tauto.
Qed.

Lemma first_occurrences_from_In (seen l : list string) (x : string) :
  In x (first_occurrences_from seen l) <-> In x l /\ ~ In x seen.
Proof.
  revert seen. induction l as [|y l IH]; intros seen; simpl.
  - tauto.
  - destruct (existsb (String.eqb y) seen) eqn:E.
    + apply existsb_eqb_In in E. rewrite IH. split.
      * tauto.
      * intros [[->|Hin] Hn]; [contradiction | tauto].
    + apply existsb_eqb_not_In in E. simpl. rewrite IH. simpl. split.
      * intros [->|(Hin & Hn)]; [tauto|]. split; [now right | tauto].
      * intros [[->|Hin] Hn]; [now left|].
        destruct (string_dec y x) as [->|Hne]; [now left | right; tauto].
Qed.

Lemma first_occurrences_from_NoDup (seen l : list string) :
  NoDup (first_occurrences_from seen l).
Proof.
  revert seen. induction l as [|y l IH]; intros seen; simpl.
  - constructor.
  - destruct (existsb (String.eqb y) seen); [apply IH|].
    constructor; [|apply IH].
    rewrite first_occurrences_from_In. simpl. tauto.
Qed.

Lemma first_occurrences_from_id (seen l : list string) :
  NoDup l -> (forall x, In x l -> ~ In x seen) ->
  first_occurrences_from seen l = l.
Proof.
  revert seen. induction l as [|y l IH]; intros seen Hnd Hfresh; simpl.
  - reflexivity.
  - inversion Hnd as [|? ? Hy Hnd']; subst.
    assert (E : existsb (String.eqb y) seen = false).
    { apply existsb_eqb_not_In, Hfresh. now left. }
    rewrite E. f_equal. apply IH; [assumption|].
    intros x Hx [->|Hseen]; [contradiction|].
    apply (Hfresh x); [now right | assumption].
Qed.

Section BatchFacts.
Context `{Builtins} `{Services}.
Variable self : ResearchSequenceTask.Task.

Import ResearchSequenceTask.

Lemma for_each_component_keys (components : list string)
    (all_results final : dict ComponentResult) (s s' : state) :
  for_each_component self components all_results s = (s', inr final) ->
  dict_keys final =
    (dict_keys all_results ++ first_occurrences_from (dict_keys all_results) components)%list.
Proof.
  revert all_results s.
  induction components as [|c components IH]; intros all_results s.
  - simpl. unfold ret. intros [= _ ->]. now rewrite app_nil_r.
  - destruct (run_exa_workflow self c c (printed s (LogProcessing c))) as [s1 outcome] eqn:Hrun.
    rewrite (for_each_component_cons self _ _ _ _ _ _ Hrun). intros Hrest.
    rewrite (IH _ _ Hrest). simpl.
    destruct (existsb (String.eqb c) (dict_keys all_results)) eqn:E.
    + apply existsb_eqb_In in E.
      now rewrite (DictFacts.dict_keys_set_old _ _ _ E).
    + apply existsb_eqb_not_In in E.
      rewrite (DictFacts.dict_keys_set_new _ _ _ E), <- app_assoc. simpl.
      do 2 f_equal. apply first_occurrences_from_ext.
      intros x. rewrite in_app_iff. simpl. tauto.
Qed.

Lemma for_each_component_untouched (components : list string) (c : string)
    (all_results final : dict ComponentResult) (s s' : state) :
  ~ In c components ->
  for_each_component self components all_results s = (s', inr final) ->
  dict_get final c = dict_get all_results c.
Proof.
  revert all_results s.
  induction components as [|c0 components IH]; intros all_results s Hfresh.
  - simpl. unfold ret. now intros [= _ ->].
  - destruct (run_exa_workflow self c0 c0 (printed s (LogProcessing c0)))
      as [s1 outcome] eqn:Hrun.
    rewrite (for_each_component_cons self _ _ _ _ _ _ Hrun). intros Hrest.
    rewrite (IH _ _ (fun Hin => Hfresh (or_intror Hin)) Hrest).
    apply DictFacts.dict_get_set_neq.
    intros ->. apply Hfresh. now left.
Qed.

(** Every component of the list gets its turn, with the dict and the state
    the components before it have left, whatever became of them. *)
Lemma for_each_component_split (pre post : list string) (c : string)
    (all_results final : dict ComponentResult) (s s' : state) :
  for_each_component self (pre ++ c :: post)%list all_results s = (s', inr final) ->
  exists s1 d1,
    for_each_component self pre all_results s = (s1, inr d1)
    /\ forall s2 outcome,
         run_exa_workflow self c c (printed s1 (LogProcessing c)) = (s2, outcome) ->
         for_each_component self post (dict_set d1 c (recorded outcome))
           (after_component s2 c outcome) = (s', inr final)
         /\ (~ In c post -> dict_get final c = Some (recorded outcome)).
Proof.
  intros Hall.
  destruct (for_each_component_returns self pre all_results s) as (s1 & d1 & Hpre).
  exists s1, d1. split; [assumption|].
  intros s2 outcome Hrun.
  rewrite (for_each_component_app self _ (c :: post) _ _ _ _ Hpre) in Hall.
  rewrite (for_each_component_cons self _ _ _ _ _ _ Hrun) in Hall.
  split; [assumption|].
  intros Hfresh.
  rewrite (for_each_component_untouched _ _ _ _ _ _ Hfresh Hall).
  apply DictFacts.dict_get_set_eq.
Qed.

Lemma run_sequential_outcome (components : list string) (s s1 : state)
    (final : dict ComponentResult) :
  for_each_component self components empty (printed s (LogComponents components))
    = (s1, inr final) ->
  run_exa_workflow_for_components_sequential self components s =
    (printed s1 LogAllComplete, inr final).
Proof.
  intros Hloop. unfold run_exa_workflow_for_components_sequential.
  unfold bind at 1. unfold print at 1. fold (printed s (LogComponents components)).
  unfold bind at 1. now rewrite Hloop.
Qed.

End BatchFacts.

(* ===================================================================== *)
(** * Properties of the run of one component *)
(* ===================================================================== *)

(** C6. When the search answers with zero citations, [run_exa_workflow]
    returns the empty list and raises nothing. *)
Theorem run_exa_workflow_no_citations `{Builtins} `{Services}
    (self : ResearchSequenceTask.Task) (query component : string) (s : state)
    (w : world) (exa_result : AnswerResponse) :
  exa_answer query (outside s) = (w, inr exa_result) ->
  citations exa_result = [] ->
  ResearchSequenceTask.run_exa_workflow self query component s =
    (printed (after_search s query w 0) LogExtractionComplete, inr []).
Proof.
  intros Hsearch Hnone.
  rewrite (run_exa_workflow_outcome self query component s
             (after_search s query w 0) w exa_result [] Hsearch).
  - reflexivity.
  - rewrite Hnone. simpl. apply completed_futures_nil.
Qed.

Lemma run_exa_workflow_no_citations_witness :
  snd (ResearchSequenceTask.run_exa_workflow Script.task "Nothing" "Nothing"
         (Script.start Script.search [])) = inr [].
Proof.
  rewrite (run_exa_workflow_no_citations Script.task "Nothing" "Nothing"
             (Script.start Script.search []) {| Script.replies := []; Script.posted := [] |}
             {| answer := "none"; citations := [] |} eq_refl eq_refl).
  reflexivity.
Defined.

(** C3. When the search has answered and one of the extractions of the
    component's citations raises, [run_exa_workflow] raises too: it raises
    the exception of the first failed future that [as_completed] yields
    (the only one, if one extraction failed), and returns no list.  Every
    future is the outcome of one call of [exa_data_extraction] on a citation
    of the answer, there are as many futures as citations, and nothing is
    caught or tried again. *)
Theorem run_exa_workflow_propagates_failure `{Builtins} `{Services}
    (self : ResearchSequenceTask.Task) (query component : string) (s s2 : state)
    (w : world) (exa_result : AnswerResponse)
    (outcomes : list (exn + ResearchSequenceTask.DataSourceRecord)) :
  exa_answer query (outside s) = (w, inr exa_result) ->
  ResearchSequenceTask.completed_futures
    (map (fun result => ResearchSequenceTask.exa_data_extraction self result component)
       (citations exa_result))
    (after_search s query w (length (citations exa_result))) = (s2, outcomes) ->
  length outcomes = length (citations exa_result)
  /\ (forall o, In o outcomes ->
        exists result st,
          In result (citations exa_result)
          /\ snd (ResearchSequenceTask.exa_data_extraction self result component st) = o)
  /\ (forall e, In (inl e) outcomes ->
        exists e',
          In (inl e') outcomes
          /\ first_exception outcomes = Some e'
          /\ ResearchSequenceTask.run_exa_workflow self query component s = (s2, inl e'))
  /\ (forall e, In (inl e) outcomes ->
        (forall e', In (inl e') outcomes -> e' = e) ->
        ResearchSequenceTask.run_exa_workflow self query component s = (s2, inl e)).
Proof.
  intros Hsearch Hpool.
  assert (Hraise : forall e, In (inl e) outcomes ->
            exists e',
              In (inl e') outcomes
              /\ first_exception outcomes = Some e'
              /\ ResearchSequenceTask.run_exa_workflow self query component s = (s2, inl e')).
  { intros e Hin. destruct (first_exception_In outcomes e Hin) as (e' & Hfirst & Hin').
    exists e'. repeat split; try assumption.
    rewrite (run_exa_workflow_outcome self query component s s2 w
               exa_result outcomes Hsearch Hpool).
    now rewrite (collect_results_raises outcomes e' Hfirst). }
  split; [|split; [|split]].
  - pose proof (completed_futures_length
                  (map (fun result =>
                          ResearchSequenceTask.exa_data_extraction self result component)
                     (citations exa_result))
                  (after_search s query w (length (citations exa_result)))) as Hlen.
    rewrite Hpool in Hlen. simpl in Hlen. now rewrite Hlen, length_map.
  - intros o Hin.
    pose proof (completed_futures_In
                  (map (fun result =>
                          ResearchSequenceTask.exa_data_extraction self result component)
                     (citations exa_result))
                  (after_search s query w (length (citations exa_result))) o) as Hfrom.
    rewrite Hpool in Hfrom. destruct (Hfrom Hin) as (t & st & Ht & Ho).
    apply in_map_iff in Ht. destruct Ht as (result & <- & Hresult).
    now exists result, st.
  - exact Hraise.
  - intros e Hin Honly. destruct (Hraise e Hin) as (e' & Hin' & _ & Hrun).
    now rewrite <- (Honly e' Hin').
Qed.

Lemma run_exa_workflow_propagates_failure_witness :
  exists s2,
    ResearchSequenceTask.run_exa_workflow Script.task "Number of cities" "Number of cities"
      (Script.start Script.search [Script.ok Script.synthesis_reply])
    = (s2, inl (OtherException "ConnectionError")).
Proof.
  pose (s := Script.start Script.search [Script.ok Script.synthesis_reply]).
  pose (w := {| Script.replies := [Script.ok Script.synthesis_reply]; Script.posted := [] |}).
  pose (exa_result := {| answer := "310";
                         citations := [Script.report; Script.report_without_text] |}).
  destruct (ResearchSequenceTask.completed_futures
              (map (fun result =>
                      ResearchSequenceTask.exa_data_extraction Script.task result
                        "Number of cities")
                 (citations exa_result))
              (after_search s "Number of cities" w (length (citations exa_result))))
    as [s2 outcomes] eqn:Hpool.
  destruct (run_exa_workflow_propagates_failure Script.task "Number of cities"
              "Number of cities" s s2 w exa_result outcomes eq_refl Hpool)
    as (_ & _ & _ & Honly).
  exists s2.
  vm_compute in Hpool. injection Hpool as <- <-.
  apply Honly.
  - now left.
  - intros e' [Hin|[Hin|[]]]; [now injection Hin as <- | discriminate Hin].
Defined.

(* ===================================================================== *)
(** * Properties of the batch *)
(* ===================================================================== *)

(** C1. [run_exa_workflow_for_components_sequential] never raises: it
    returns a dict for every list of component names.  Each component of
    the list gets its run, in the dict and state the components before it
    have left; when that run raises, [None] is stored under the component
    and the loop goes on with the components after it, and when it returns
    a list, that list is stored.  Unless the name comes again later in the
    list, what was stored is what the returned dict holds. *)
Theorem batch_isolates_component_failures `{Builtins} `{Services}
    (self : ResearchSequenceTask.Task) (components : list string) (s : state) :
  exists s' all_results,
    ResearchSequenceTask.run_exa_workflow_for_components_sequential self components s
      = (s', inr all_results)
    /\ forall pre c post, components = (pre ++ c :: post)%list ->
       exists s1 d1,
         ResearchSequenceTask.for_each_component self pre empty
           (printed s (LogComponents components)) = (s1, inr d1)
         /\ (forall s2 e,
               ResearchSequenceTask.run_exa_workflow self c c (printed s1 (LogProcessing c))
                 = (s2, inl e) ->
               ResearchSequenceTask.for_each_component self (c :: post) d1 s1 =
                 ResearchSequenceTask.for_each_component self post (dict_set d1 c None)
                   (printed s2 (LogFailed c e))
               /\ (~ In c post -> dict_get all_results c = Some None))
         /\ (forall s2 df,
               ResearchSequenceTask.run_exa_workflow self c c (printed s1 (LogProcessing c))
                 = (s2, inr df) ->
               ResearchSequenceTask.for_each_component self (c :: post) d1 s1 =
                 ResearchSequenceTask.for_each_component self post (dict_set d1 c (Some df))
                   (printed s2 (LogCompleted c))
               /\ (~ In c post -> dict_get all_results c = Some (Some df))).
Proof.
  destruct (for_each_component_returns self components empty
              (printed s (LogComponents components))) as (s1 & final & Hloop).
  exists (printed s1 LogAllComplete), final.
  split; [now apply run_sequential_outcome|].
  intros pre c post ->.
  destruct (for_each_component_split self pre post c empty final _ s1 Hloop)
    as (s0 & d0 & Hpre & Hturn).
  exists s0, d0. split; [assumption|]. split.
  - intros s2 e Hrun. destruct (Hturn s2 (inl e) Hrun) as [_ Hkept].
    split; [|exact Hkept].
    apply (for_each_component_cons self c post d0 s0 s2 (inl e) Hrun).
  - intros s2 df Hrun. destruct (Hturn s2 (inr df) Hrun) as [_ Hkept].
    split; [|exact Hkept].
    apply (for_each_component_cons self c post d0 s0 s2 (inr df) Hrun).
Qed.

Lemma batch_isolates_component_failures_witness :
  exists s' all_results,
    ResearchSequenceTask.run_exa_workflow_for_components_sequential Script.task
      [ "BadComponent"; "Nothing" ] (Script.start Script.search []) = (s', inr all_results)
    /\ dict_get all_results "BadComponent" = Some None
    /\ dict_get all_results "Nothing" = Some (Some []).
Proof.
  destruct (batch_isolates_component_failures Script.task [ "BadComponent"; "Nothing" ]
              (Script.start Script.search [])) as (s' & all_results & Hrun & Hturns).
  exists s', all_results. split; [exact Hrun|]. split.
  - destruct (Hturns [] "BadComponent" [ "Nothing" ] eq_refl) as (s1 & d1 & Hpre & Hfail & _).
    injection Hpre as <- <-.
    refine (proj2 (Hfail _ (OtherException "ExaError") eq_refl) _).
    simpl. intuition discriminate.
  - destruct (Hturns [ "BadComponent" ] "Nothing" [] eq_refl) as (s1 & d1 & Hpre & _ & Hok).
    vm_compute in Hpre. injection Hpre as <- <-.
    refine (proj2 (Hok _ [] eq_refl) _).
    simpl. tauto.
Defined.

(** C2. The dict that [run_exa_workflow_for_components_sequential] returns
    has as keys the distinct names of the input, each once, in the order of
    their first occurrence; for an input without repetition the keys are
    the input list itself.  Under a name the dict holds what the last run
    of that name gave. *)
Theorem batch_result_keys `{Builtins} `{Services}
    (self : ResearchSequenceTask.Task) (components : list string) (s : state) :
  exists s' all_results,
    ResearchSequenceTask.run_exa_workflow_for_components_sequential self components s
      = (s', inr all_results)
    /\ dict_keys all_results = first_occurrences components
    /\ NoDup (dict_keys all_results)
    /\ (forall c, In c (dict_keys all_results) <-> In c components)
    /\ (NoDup components -> dict_keys all_results = components)
    /\ (forall pre c post, components = (pre ++ c :: post)%list -> ~ In c post ->
        exists s1 d1,
          ResearchSequenceTask.for_each_component self pre empty
            (printed s (LogComponents components)) = (s1, inr d1)
          /\ forall s2 outcome,
               ResearchSequenceTask.run_exa_workflow self c c (printed s1 (LogProcessing c))
                 = (s2, outcome) ->
               dict_get all_results c = Some (recorded outcome)).
Proof.
  destruct (for_each_component_returns self components empty
              (printed s (LogComponents components))) as (s1 & final & Hloop).
  exists (printed s1 LogAllComplete), final.
  split; [now apply run_sequential_outcome|].
  assert (Hkeys : dict_keys final = first_occurrences components).
  { now rewrite (for_each_component_keys self components empty final _ s1 Hloop). }
  rewrite Hkeys. unfold first_occurrences.
  split; [reflexivity|]. split; [apply first_occurrences_from_NoDup|]. split; [|split].
  - intros c. rewrite first_occurrences_from_In. simpl. tauto.
  - intros Hnd. apply first_occurrences_from_id; [assumption | intros x _ []].
  - intros pre c post -> Hlast.
    destruct (for_each_component_split self pre post c empty final _ s1 Hloop)
      as (s0 & d0 & Hpre & Hturn).
    exists s0, d0. split; [assumption|].
    intros s2 outcome Hrun. now apply (Hturn s2 outcome Hrun).
Qed.

Lemma batch_result_keys_witness :
  exists s' all_results,
    ResearchSequenceTask.run_exa_workflow_for_components_sequential Script.task
      [ "Nothing"; "BadComponent"; "Nothing" ] (Script.start Script.search [])
      = (s', inr all_results)
    /\ dict_keys all_results = [ "Nothing"; "BadComponent" ]
    /\ dict_get all_results "BadComponent" = Some None.
Proof.
  destruct (batch_result_keys Script.task [ "Nothing"; "BadComponent"; "Nothing" ]
              (Script.start Script.search []))
    as (s' & all_results & Hrun & Hkeys & _ & _ & _ & Hlast).
  exists s', all_results. split; [exact Hrun|]. split; [exact Hkeys|].
  destruct (Hlast [ "Nothing" ] "BadComponent" [ "Nothing" ] eq_refl) as (s1 & d1 & Hpre & Hval).
  - simpl. intuition discriminate.
  - vm_compute in Hpre. injection Hpre as <- <-.
    exact (Hval _ (inl (OtherException "ExaError")) eq_refl).
Defined.

(* ===================================================================== *)
(** * Properties of the extraction of one citation *)
(* ===================================================================== *)

(** C5. When the synthesis reply is a JSON object, the record that
    [exa_data_extraction] returns is the dict with the component under
    [component], then the three citation fields under [DATA_SOURCE_NAME],
    [DATA_SOURCE_LINK] and [DATA_SOURCE_TEXT], updated with the parsed
    reply: under every key the record holds the reply's value when the
    reply has the key, and the component or citation field otherwise. *)
Theorem extraction_record_is_merge `{Builtins} `{Services}
    (self : ResearchSequenceTask.Task) (c : Citation) (component prompt : string)
    (s s' : state) (reply_text : string) (reply : dict json) :
  PromptFactory.get_prompt "exa_synthesis_prompt"
    (ResearchSequenceTask.synthesis_kwargs c component) = inr prompt ->
  ResearchSequenceTask.chat_response self prompt true s = (s', inr (JString reply_text)) ->
  json_loads reply_text = Some (JObject reply) ->
  exists record,
    ResearchSequenceTask.exa_data_extraction self c component s = (s', inr record)
    /\ record =
         dict_or
           (dict_or [ ("component", JString component) ]
              [ ("DATA_SOURCE_NAME", attribute_value (title c));
                ("DATA_SOURCE_LINK", attribute_value (url c));
                ("DATA_SOURCE_TEXT", attribute_value (text c)) ])
           reply
    /\ (NoDup (dict_keys reply) ->
        forall k,
          dict_get record k =
            match dict_get reply k with
            | Some v => Some v
            | None =>
                dict_get
                  [ ("component", JString component);
                    ("DATA_SOURCE_NAME", attribute_value (title c));
                    ("DATA_SOURCE_LINK", attribute_value (url c));
                    ("DATA_SOURCE_TEXT", attribute_value (text c)) ] k
            end).
Proof.
  intros Hprompt Hchat Hloads.
  eexists. split; [|split; [reflexivity|]].
  - rewrite (exa_data_extraction_outcome self c component prompt s s' _ Hprompt Hchat).
    simpl. rewrite Hloads. reflexivity.
  - intros Hnd k. now rewrite (DictFacts.dict_get_or _ reply k Hnd).
Qed.

Lemma extraction_record_is_merge_witness :
  exists record,
    snd (ResearchSequenceTask.exa_data_extraction Script.task Script.report "Number of cities"
           (Script.start Script.search [Script.ok Script.synthesis_reply])) = inr record
    /\ dict_get record "DATA_POINT" = Some (JInt 42)
    /\ dict_get record "DATA_SOURCE_NAME" = Some (JString "City report")
    /\ dict_get record "component" = Some (JString "Number of cities").
Proof.
  pose (s := Script.start Script.search [Script.ok Script.synthesis_reply]).
  pose (prompt := PromptFactory.exa_synthesis_prompt (JString "There are 310 cities.")
                    (JString "Number of cities")).
  assert (Hchat : ResearchSequenceTask.chat_response Script.task prompt true s =
                    (fst (ResearchSequenceTask.chat_response Script.task prompt true s),
                     inr (JString Script.synthesis_reply)))
    by (vm_compute; reflexivity).
  destruct (extraction_record_is_merge Script.task Script.report "Number of cities" prompt
              s _ Script.synthesis_reply
              [ ("DATA_POINT", JInt 42); ("DATA_SOURCE_OVERVIEW", JString "census table") ]
              eq_refl Hchat eq_refl) as (record & Hrun & _ & Hget).
  exists record. fold s. rewrite Hrun. split; [reflexivity|].
  assert (Hnd : NoDup [ "DATA_POINT"; "DATA_SOURCE_OVERVIEW" ])
    by (repeat constructor; simpl; intuition discriminate).
  rewrite !(Hget Hnd). repeat split.
Defined.

(** C4, amended. [exa_data_extraction] passes the synthesis reply to
    [json.loads] and asks for no key: it raises, to its caller, the
    exception of the request if that failed, [JSONDecodeError] when the
    reply does not parse, [TypeError] when the reply is not a string or
    parses to something other than a JSON object, and it returns the
    merged record for every reply that is a JSON object, whatever keys it
    has. *)
Theorem extraction_reply_handling `{Builtins} `{Services}
    (self : ResearchSequenceTask.Task) (c : Citation) (component prompt : string)
    (s s' : state) (outcome : exn + json) :
  PromptFactory.get_prompt "exa_synthesis_prompt"
    (ResearchSequenceTask.synthesis_kwargs c component) = inr prompt ->
  ResearchSequenceTask.chat_response self prompt true s = (s', outcome) ->
  ResearchSequenceTask.exa_data_extraction self c component s =
    (s',
     match outcome with
     | inl e => inl e
     | inr (JString reply_text) =>
         match json_loads reply_text with
         | None => inl JSONDecodeError
         | Some (JObject reply) =>
             inr (dict_or
                    (dict_or [ ("component", JString component) ]
                       (ResearchSequenceTask.data_source_of c))
                    reply)
         | Some _ => inl TypeError
         end
     | inr _ => inl TypeError
     end).
Proof.
  intros Hprompt Hchat.
  rewrite (exa_data_extraction_outcome self c component prompt s s' outcome Hprompt Hchat).
  f_equal. destruct outcome as [e|content]; [reflexivity|].
  destruct content as [| | | |reply_text| |]; try reflexivity.
  simpl. destruct (json_loads reply_text) as [[]|]; reflexivity.
Qed.

Lemma extraction_reply_handling_witness :
  snd (ResearchSequenceTask.exa_data_extraction Script.task Script.report "Number of cities"
         (Script.start Script.search [Script.ok Script.empty_array])) = inl TypeError.
Proof.
  pose (s := Script.start Script.search [Script.ok Script.empty_array]).
  pose (prompt := PromptFactory.exa_synthesis_prompt (JString "There are 310 cities.")
                    (JString "Number of cities")).
  assert (Hchat : ResearchSequenceTask.chat_response Script.task prompt true s =
                    (fst (ResearchSequenceTask.chat_response Script.task prompt true s),
                     inr (JString Script.empty_array)))
    by (vm_compute; reflexivity).
  fold s.
  rewrite (extraction_reply_handling Script.task Script.report "Number of cities" prompt
             s _ _ eq_refl Hchat).
  reflexivity.
Defined.

(** C4 as stated fails: the reply [{}] is a JSON object without
    [DATA_POINT] and without [DATA_SOURCE_OVERVIEW], and the extraction
    returns a record all the same. *)
Lemma extraction_accepts_reply_without_keys :
  json_loads Script.empty_object = Some (JObject [])
  /\ exists s',
       ResearchSequenceTask.exa_data_extraction Script.task Script.report "Number of cities"
         (Script.start Script.search [Script.ok Script.empty_object])
       = (s',
          inr [ ("component", JString "Number of cities");
                ("DATA_SOURCE_NAME", JString "City report");
                ("DATA_SOURCE_LINK", JString "https://example.org/report");
                ("DATA_SOURCE_TEXT", JString "There are 310 cities.") ]).
Proof.
  split; [reflexivity|].
  eexists. vm_compute. reflexivity.
Qed.

(** C7, on the code.  For a citation without text the keyword argument
    [text] of the synthesis prompt is [None], not the empty string: the key
    [DATA_SOURCE_TEXT] is always in [data_source], so the default of
    [get] is never used, and the prompt that is rendered reads [None]
    where the text should be. *)
Theorem absent_text_is_rendered_as_None :
  dict_get (ResearchSequenceTask.synthesis_kwargs Script.report_without_text "Number of cities")
    "text" = Some JNull
  /\ JNull <> JString EmptyString
  /\ exists prompt,
       PromptFactory.get_prompt "exa_synthesis_prompt"
         (ResearchSequenceTask.synthesis_kwargs Script.report_without_text "Number of cities")
       = inr prompt
       /\ occurs_in ("The following text is from a data source:" ++ nl ++ "None" ++ nl) prompt.
Proof.
  split; [reflexivity|]. split; [discriminate|].
  eexists. split; [reflexivity|].
  exists EmptyString. eexists. reflexivity.
Qed.

(* ===================================================================== *)
(** * Properties of the decomposition of a formula *)
(* ===================================================================== *)

(** C10, amended. [get_components_from_formula] follows the reply of the
    model: it raises the exception of the request if that failed,
    [TypeError] when the reply is not a string, [JSONDecodeError] when it
    does not parse and [AttributeError] when it parses to something other
    than a JSON object.  For a JSON object it returns the empty list,
    printing nothing, when [components] is missing; the list, when
    [components] is a list; and the empty list after printing the warning,
    when [components] is anything else. *)
Theorem get_components_reply_handling `{Builtins} `{Services}
    (self : ResearchSequenceTask.Task) (formula prompt : string) (s s' : state)
    (outcome : exn + json) :
  PromptFactory.get_prompt "decompose_formula_prompt" [ ("formula", JString formula) ]
    = inr prompt ->
  ResearchSequenceTask.chat_response self prompt true s = (s', outcome) ->
  ResearchSequenceTask.get_components_from_formula self formula s =
    match outcome with
    | inl e => (s', inl e)
    | inr (JString reply_text) =>
        match json_loads reply_text with
        | None => (s', inl JSONDecodeError)
        | Some (JObject data) =>
            match dict_get data "components" with
            | None => (s', inr [])
            | Some (JArray components) => (s', inr components)
            | Some components =>
                (printed s' (LogUnexpectedComponents components), inr [])
            end
        | Some _ => (s', inl AttributeError)
        end
    | inr _ => (s', inl TypeError)
    end.
Proof.
  intros Hprompt Hchat.
  rewrite (get_components_outcome self formula prompt s s' outcome Hprompt Hchat).
  destruct outcome as [e|content]; [reflexivity|].
  destruct content as [| | | |reply_text| |]; try reflexivity.
  simpl. destruct (json_loads reply_text) as [[| | | | | |data]|]; try reflexivity.
  simpl. unfold dict_get_default. now destruct (dict_get data "components").
Qed.

Lemma get_components_reply_handling_witness :
  ResearchSequenceTask.get_components_from_formula Script.task "cities * population"
    (Script.start Script.search [Script.ok Script.components_as_text_reply])
  = (printed
       (fst (ResearchSequenceTask.chat_response Script.task
               (PromptFactory.decompose_formula_prompt (JString "cities * population")) true
               (Script.start Script.search [Script.ok Script.components_as_text_reply])))
       (LogUnexpectedComponents (JString "Number of cities")),
     inr []).
Proof.
  pose (s := Script.start Script.search [Script.ok Script.components_as_text_reply]).
  pose (prompt := PromptFactory.decompose_formula_prompt (JString "cities * population")).
  assert (Hchat : ResearchSequenceTask.chat_response Script.task prompt true s =
                    (fst (ResearchSequenceTask.chat_response Script.task prompt true s),
                     inr (JString Script.components_as_text_reply)))
    by (vm_compute; reflexivity).
  fold s. fold prompt.
  rewrite (get_components_reply_handling Script.task "cities * population" prompt
             s _ _ eq_refl Hchat).
  reflexivity.
Defined.

(** C10 as stated fails twice.  The reply [{}] is a JSON object without
    [components]: the empty list is returned and no warning is printed.
    The reply [[]] is parseable JSON received from a request that
    succeeded, and the call raises [AttributeError]. *)
Lemma get_components_without_warning_and_raising :
  (json_loads Script.empty_object = Some (JObject [])
   /\ exists s',
        ResearchSequenceTask.get_components_from_formula Script.task "cities * population"
          (Script.start Script.search [Script.ok Script.empty_object]) = (s', inr [])
        /\ stdout s' = [])
  /\ (json_loads Script.empty_array = Some (JArray [])
      /\ exists s',
           ResearchSequenceTask.chat_response Script.task
             (PromptFactory.decompose_formula_prompt (JString "cities * population")) true
             (Script.start Script.search [Script.ok Script.empty_array])
           = (s', inr (JString Script.empty_array))
           /\ ResearchSequenceTask.get_components_from_formula Script.task
                "cities * population"
                (Script.start Script.search [Script.ok Script.empty_array])
              = (s', inl AttributeError)).
Proof.
  split; (split; [reflexivity|]).
  - eexists. split; vm_compute; reflexivity.
  - eexists. split; vm_compute; reflexivity.
Qed.

(* ===================================================================== *)
(** * More on the prompt registry *)
(* ===================================================================== *)

Section PromptFactoryMore.
Context `{Builtins}.

Lemma call_with_other_kwargs (m : PromptFactory.staticmethod) (kw : PromptFactory.kwargs) :
  ~ (NoDup (map fst kw)
     /\ forall a, In a (map fst kw) <-> In a (PromptFactory.parameters m)) ->
  PromptFactory.call_with_kwargs m kw = inl TypeError.
Proof.
  intros Hnot. unfold PromptFactory.call_with_kwargs.
  destruct (PromptFactory.has_duplicate (map fst kw)) eqn:Hdup; [reflexivity|].
  apply has_duplicate_false in Hdup.
  destruct (forallb _ (map fst kw)) eqn:Hall; [|reflexivity]. simpl.
  assert (Hsub : forall a, In a (map fst kw) -> In a (PromptFactory.parameters m)).
  { intros a Ha. rewrite forallb_forall in Hall. apply existsb_eqb_In, Hall, Ha. }
  destruct m as [p f | p1 p2 f]; simpl in *.
  - destruct (dict_get kw p) as [a|] eqn:Hp; [|reflexivity].
    exfalso. apply Hnot. split; [assumption|].
    intros a0. split; [apply Hsub|].
    intros [<-|[]]. eapply DictFacts.dict_get_Some_In, Hp.
  - destruct (dict_get kw p1) as [a|] eqn:Hp1; [|reflexivity].
    destruct (dict_get kw p2) as [b|] eqn:Hp2; [|reflexivity].
    exfalso. apply Hnot. split; [assumption|].
    intros a0. split; [apply Hsub|].
    intros [<-|[<-|[]]]; eapply DictFacts.dict_get_Some_In; eassumption.
Qed.

Lemma call_result_contains_arguments (m : PromptFactory.staticmethod)
    (kw : PromptFactory.kwargs) (prompt : string) :
  (forall p f a, m = PromptFactory.Unary p f -> occurs_in (py_str a) (f a)) ->
  (forall p1 p2 f a b, m = PromptFactory.Binary p1 p2 f ->
     occurs_in (py_str a) (f a b) /\ occurs_in (py_str b) (f a b)) ->
  PromptFactory.call_with_kwargs m kw = inr prompt ->
  forall k v, dict_get kw k = Some v -> occurs_in (py_str v) prompt.
Proof.
  intros Hunary Hbinary. unfold PromptFactory.call_with_kwargs.
  destruct (PromptFactory.has_duplicate (map fst kw)); [discriminate|].
  destruct (forallb _ (map fst kw)) eqn:Hall; [|discriminate]. simpl.
  intros Hcall k v Hk.
  assert (Hparam : In k (PromptFactory.parameters m)).
  { rewrite forallb_forall in Hall. apply existsb_eqb_In, Hall.
    eapply DictFacts.dict_get_Some_In, Hk. }
  destruct m as [p f | p1 p2 f]; simpl in *.
  - destruct Hparam as [<-|[]]. rewrite Hk in Hcall. injection Hcall as <-.
    now apply (Hunary p f).
  - destruct (dict_get kw p1) as [a|] eqn:Hp1; [|discriminate].
    destruct (dict_get kw p2) as [b|] eqn:Hp2; [|discriminate].
    injection Hcall as <-.
    destruct (Hbinary p1 p2 f a b eq_refl) as [Ha Hb].
    destruct Hparam as [<-|[<-|[]]]; congruence.
Qed.

End PromptFactoryMore.

(** X1. For a recognized template name, any keyword arguments other than
    exactly the required ones, each once, make [get_prompt] raise
    [TypeError]: an extra keyword is not ignored. *)
Theorem get_prompt_rejects_other_arguments `{Builtins} (name : string)
    (kw : PromptFactory.kwargs) :
  In name template_names ->
  ~ (NoDup (map fst kw)
     /\ forall a, In a (map fst kw) <-> In a (required_arguments name)) ->
  PromptFactory.get_prompt name kw = inl TypeError.
Proof.
  intros Hname. destruct (router_recognizes name Hname) as [m Hm].
  unfold PromptFactory.get_prompt, required_arguments. rewrite Hm.
  destruct (PromptFactory.clashes_with_signature kw); [reflexivity|].
  apply call_with_other_kwargs.
Qed.

Lemma get_prompt_rejects_other_arguments_witness :
  PromptFactory.get_prompt (H := Script.builtins) "datasource_prompt"
    [ ("formula", JString "cities * population"); ("tone", JString "formal") ]
  = inl TypeError.
Proof.
  apply (get_prompt_rejects_other_arguments (H := Script.builtins)).
  - unfold template_names. simpl. tauto.
  - intros [_ Hsame]. destruct (proj1 (Hsame "tone")) as [Habs|[]].
    + simpl. tauto.
    + discriminate Habs.
Defined.

(** Finds a piece of text among the pieces an f-string is made of. *)
Ltac locate_hole :=
  first [ apply occurs_in_prefix; apply occurs_in_refl
        | apply occurs_in_suffix; locate_hole ].

(** X2. Whenever [get_prompt] renders a prompt, the text of every keyword
    argument it was given occurs in that prompt. *)
Theorem rendered_prompt_contains_arguments `{Builtins} (name : string)
    (kw : PromptFactory.kwargs) (prompt : string) :
  PromptFactory.get_prompt name kw = inr prompt ->
  forall k v, dict_get kw k = Some v -> occurs_in (py_str v) prompt.
Proof.
  unfold PromptFactory.get_prompt.
  destruct (PromptFactory.clashes_with_signature kw); [discriminate|].
  destruct (dict_get PromptFactory.router name) as [m|] eqn:Hm; [|discriminate].
  pose proof (router_entry name m Hm) as Hrouted.
  apply call_result_contains_arguments.
  - intros p f a ->.
    repeat (destruct Hrouted as [Heq|Hrouted];
            [ try discriminate Heq; injection Heq as _ _ <- |]);
      try contradiction; locate_hole.
  - intros p1 p2 f a b ->.
    repeat (destruct Hrouted as [Heq|Hrouted];
            [ try discriminate Heq; injection Heq as _ _ _ <- |]);
      try contradiction.
    split; locate_hole.
Qed.

Lemma rendered_prompt_contains_arguments_witness :
  exists prompt,
    PromptFactory.get_prompt (H := Script.builtins) "decompose_formula_prompt"
      [ ("formula", JString "cities * population") ] = inr prompt
    /\ occurs_in "cities * population" prompt.
Proof.
  eexists. split; [reflexivity|].
  apply (rendered_prompt_contains_arguments (H := Script.builtins)
           "decompose_formula_prompt" [ ("formula", JString "cities * population") ]
           _ eq_refl "formula" (JString "cities * population") eq_refl).
Defined.

(* ===================================================================== *)
(** * The request to the model *)
(* ===================================================================== *)

Section ChatFacts.
Context `{Builtins} `{Services}.
Variable self : ResearchSequenceTask.Task.

Import ResearchSequenceTask.

(** [chat_response], read off the answer to its request. *)
Lemma chat_response_outcome (prompt : string) (response_json : bool) (s : state)
    (w : world) (answered : exn + Response) :
  requests_post chat_url (chat_headers self) (chat_payload self prompt response_json)
    (outside s) = (w, answered) ->
  chat_response self prompt response_json s =
    ({| outside := w; stdout := stdout s |},
     match answered with
     | inl e => inl e
     | inr response =>
         match raise_for_status response with
         | inl e => inl e
         | inr _ =>
             match json_method response with
             | inl e => inl e
             | inr result =>
                 match getitem_str result "choices" with
                 | inl e => inl e
                 | inr choices =>
                     match getitem_0 choices with
                     | inl e => inl e
                     | inr choice =>
                         match getitem_str choice "message" with
                         | inl e => inl e
                         | inr message => getitem_str message "content"
                         end
                     end
                 end
             end
         end
     end).
Proof.
  intros Hpost. unfold chat_response.
  destruct response_json;
    unfold bind at 1; unfold call at 1;
    match type of Hpost with
    | ?posted = _ =>
        match goal with
        | |- context [requests_post ?u ?h ?d (outside s)] =>
            change (requests_post u h d (outside s)) with posted
        end
    end;
    rewrite Hpost; (destruct answered as [e|response]; [reflexivity|]);
    unfold bind, lift;
    (destruct (raise_for_status response); [reflexivity|]);
    (destruct (json_method response) as [|result]; [reflexivity|]);
    (destruct (getitem_str result "choices") as [|choices]; [reflexivity|]);
    (destruct (getitem_0 choices) as [|choice]; [reflexivity|]);
    now destruct (getitem_str choice "message").
Qed.

End ChatFacts.
(** X3. When the endpoint answers with a status from 400 to 599,
    [chat_response] raises [HTTPError] with that status, whatever the body
    of the answer holds. *)
Theorem chat_response_http_error `{Builtins} `{Services}
    (self : ResearchSequenceTask.Task) (prompt : string) (response_json : bool)
    (s : state) (w : world) (response : Response) :
  requests_post chat_url (chat_headers self) (chat_payload self prompt response_json)
    (outside s) = (w, inr response) ->
  (400 <= status_code response < 600)%Z ->
  ResearchSequenceTask.chat_response self prompt response_json s =
    ({| outside := w; stdout := stdout s |}, inl (HTTPError (status_code response))).
Proof.
  intros Hpost [Hlow Hhigh].
  rewrite (chat_response_outcome self prompt response_json s w _ Hpost).
  unfold raise_for_status.
  apply Z.leb_le in Hlow. apply Z.ltb_lt in Hhigh. now rewrite Hlow, Hhigh.
Qed.

Lemma chat_response_http_error_witness :
  snd (ResearchSequenceTask.chat_response Script.task "How many cities?" false
         (Script.start Script.search
            [ inr {| status_code := 429; body := Script.completion_body Script.empty_object |} ]))
  = inl (HTTPError 429).
Proof.
  rewrite (chat_response_http_error Script.task "How many cities?" false
             (Script.start Script.search
                [ inr {| status_code := 429;
                         body := Script.completion_body Script.empty_object |} ])
             _ {| status_code := 429; body := Script.completion_body Script.empty_object |}
             eq_refl).
  - reflexivity.
  - simpl. lia.
Defined.

(** X4. When the endpoint answers with another status and a body that is
    a JSON object whose [choices] is a list starting with an object that
    has a [message] object with a [content], [chat_response] returns that
    content; the choices after the first are not looked at. *)
Theorem chat_response_returns_first_choice `{Builtins} `{Services}
    (self : ResearchSequenceTask.Task) (prompt : string) (response_json : bool)
    (s : state) (w : world) (response : Response)
    (result choice message : dict json) (others : list json) (content : json) :
  requests_post chat_url (chat_headers self) (chat_payload self prompt response_json)
    (outside s) = (w, inr response) ->
  ~ (400 <= status_code response < 600)%Z ->
  json_loads (body response) = Some (JObject result) ->
  dict_get result "choices" = Some (JArray (JObject choice :: others)) ->
  dict_get choice "message" = Some (JObject message) ->
  dict_get message "content" = Some content ->
  ResearchSequenceTask.chat_response self prompt response_json s =
    ({| outside := w; stdout := stdout s |}, inr content).
Proof.
  intros Hpost Hstatus Hbody Hchoices Hmessage Hcontent.
  rewrite (chat_response_outcome self prompt response_json s w _ Hpost).
  unfold raise_for_status.
  destruct ((400 <=? status_code response)%Z && (status_code response <? 600)%Z) eqn:E.
  - exfalso. apply Hstatus. apply andb_true_iff in E. destruct E as [E1 E2].
    split; [now apply Z.leb_le | now apply Z.ltb_lt].
  - unfold json_method, loads. rewrite Hbody. simpl.
    rewrite Hchoices. simpl. rewrite Hmessage. simpl. now rewrite Hcontent.
Qed.

Lemma chat_response_returns_first_choice_witness :
  snd (ResearchSequenceTask.chat_response Script.task "How many cities?" true
         (Script.start Script.search [ Script.ok Script.empty_object ]))
  = inr (JString Script.empty_object).
Proof.
  rewrite (chat_response_returns_first_choice Script.task "How many cities?" true
             (Script.start Script.search [ Script.ok Script.empty_object ])
             _ {| status_code := 200; body := Script.completion_body Script.empty_object |}
             [ ("choices",
                JArray [ JObject [ ("message",
                                    JObject [ ("content", JString Script.empty_object) ]) ] ]) ]
             [ ("message", JObject [ ("content", JString Script.empty_object) ]) ]
             [ ("content", JString Script.empty_object) ] []
             (JString Script.empty_object) eq_refl).
  - reflexivity.
  - simpl. lia.
  - reflexivity.
  - reflexivity.
  - reflexivity.
  - reflexivity.
Defined.

(** X5. [chat_response] returns nothing else: a value it returns is the
    [content] of the [message] of the first of the [choices] of an answer
    whose status is outside 400 to 599; and it has printed nothing. *)
Theorem chat_response_returned_value `{Builtins} `{Services}
    (self : ResearchSequenceTask.Task) (prompt : string) (response_json : bool)
    (s s' : state) (content : json) :
  ResearchSequenceTask.chat_response self prompt response_json s = (s', inr content) ->
  stdout s' = stdout s
  /\ exists response result choice others message,
       requests_post chat_url (chat_headers self) (chat_payload self prompt response_json)
         (outside s) = (outside s', inr response)
       /\ ~ (400 <= status_code response < 600)%Z
       /\ json_loads (body response) = Some (JObject result)
       /\ dict_get result "choices" = Some (JArray (JObject choice :: others))
       /\ dict_get choice "message" = Some (JObject message)
       /\ dict_get message "content" = Some content.
Proof.
  destruct (requests_post chat_url (chat_headers self)
              (chat_payload self prompt response_json) (outside s))
    as [w answered] eqn:Hpost.
  rewrite (chat_response_outcome self prompt response_json s w answered Hpost).
  destruct answered as [e|response]; [discriminate|].
  unfold raise_for_status.
  destruct ((400 <=? status_code response)%Z && (status_code response <? 600)%Z) eqn:E;
    [discriminate|].
  unfold json_method, loads.
  destruct (json_loads (body response)) as [result|] eqn:Hbody; [|discriminate].
  destruct result as [| | | | | |result]; try discriminate. simpl.
  destruct (dict_get result "choices") as [choices|] eqn:Hchoices; [|discriminate].
  destruct choices as [| | | |text|[|choice others]|]; try discriminate;
    try (destruct text; discriminate). simpl.
  destruct choice as [| | | | | |choice]; try discriminate. simpl.
  destruct (dict_get choice "message") as [message|] eqn:Hmessage; [|discriminate].
  destruct message as [| | | | | |message]; try discriminate. simpl.
  destruct (dict_get message "content") as [v|] eqn:Hcontent; [|discriminate].
  intros [= <- <-]. split; [reflexivity|].
  exists response, result, choice, others, message. simpl.
  repeat split; try assumption.
  intros [Hlow Hhigh]. apply Z.leb_le in Hlow. apply Z.ltb_lt in Hhigh.
  rewrite Hlow, Hhigh in E. discriminate E.
Qed.

Lemma chat_response_returned_value_witness :
  exists response,
    Script.scripted_post chat_url (chat_headers Script.task)
      (chat_payload Script.task "How many cities?" true)
      {| Script.replies := [ Script.ok Script.empty_object ]; Script.posted := [] |}
    = ({| Script.replies := [];
          Script.posted := [ chat_payload Script.task "How many cities?" true ] |},
       inr response)
    /\ status_code response = 200%Z.
Proof.
  assert (Hrun : ResearchSequenceTask.chat_response Script.task "How many cities?" true
                   (Script.start Script.search [ Script.ok Script.empty_object ])
                 = (@Build_state (Script.services Script.search)
                      {| Script.replies := [];
                         Script.posted :=
                           [ chat_payload Script.task "How many cities?" true ] |}
                      [],
                    inr (JString Script.empty_object)))
    by (vm_compute; reflexivity).
  destruct (chat_response_returned_value Script.task "How many cities?" true _ _ _ Hrun)
    as (_ & response & result & choice & others & message & Hpost & _).
  exists response. split; [exact Hpost|].
  simpl in Hpost. injection Hpost as <-. reflexivity.
Defined.

(** X6. [chat_response] posts one request and prints nothing, whether it
    returns or raises: the state it leaves is the state the one request
    leaves.  The payload names the model, carries the system message and
    the prompt, and asks for a JSON object exactly when [response_json] is
    set. *)
Theorem chat_response_single_request `{Builtins} `{Services}
    (self : ResearchSequenceTask.Task) (prompt : string) (response_json : bool)
    (s : state) :
  fst (ResearchSequenceTask.chat_response self prompt response_json s) =
    {| outside := fst (requests_post chat_url (chat_headers self)
                         (chat_payload self prompt response_json) (outside s));
       stdout := stdout s |}
  /\ getitem_str (chat_payload self prompt response_json) "model" = inr (JString "gpt-4o")
  /\ getitem_str (chat_payload self prompt response_json) "messages" =
       inr (JArray
              [ JObject [ ("role", JString "system");
                          ("content", JString (ResearchSequenceTask.system_message self)) ];
                JObject [ ("role", JString "user"); ("content", JString prompt) ] ])
  /\ getitem_str (chat_payload self prompt response_json) "response_format" =
       (if response_json
        then inr (JObject [ ("type", JString "json_object") ])
        else inl KeyError).
Proof.
  split.
  - destruct (requests_post chat_url (chat_headers self)
                (chat_payload self prompt response_json) (outside s))
      as [w answered] eqn:Hpost.
    now rewrite (chat_response_outcome self prompt response_json s w answered Hpost).
  - destruct response_json; repeat split.
Qed.

(* ===================================================================== *)
(** * Formulas and data sources *)
(* ===================================================================== *)

(** X7. [generate_market_formulas] follows the reply of the model: it
    raises the exception of the request if that failed, [TypeError] when
    the reply is not a string, [JSONDecodeError] when it does not parse and
    [AttributeError] when it parses to something other than a JSON object.
    For a JSON object it returns what is under [formula], of whatever
    type, and the empty list when the key is missing. *)
Theorem generate_market_formulas_reply_handling `{Builtins} `{Services}
    (self : ResearchSequenceTask.Task) (market_description prompt : string)
    (s s' : state) (outcome : exn + json) :
  PromptFactory.get_prompt "formula_brainstorm_prompt"
    [ ("market_description", JString market_description) ] = inr prompt ->
  ResearchSequenceTask.chat_response self prompt true s = (s', outcome) ->
  ResearchSequenceTask.generate_market_formulas self market_description s =
    (s',
     match outcome with
     | inl e => inl e
     | inr (JString reply_text) =>
         match json_loads reply_text with
         | None => inl JSONDecodeError
         | Some (JObject data) =>
             match dict_get data "formula" with
             | Some formulas => inr formulas
             | None => inr (JArray [])
             end
         | Some _ => inl AttributeError
         end
     | inr _ => inl TypeError
     end).
Proof.
  intros Hprompt Hchat. unfold ResearchSequenceTask.generate_market_formulas.
  rewrite Hprompt. unfold bind at 1. unfold lift at 1. unfold bind at 1.
  rewrite Hchat. destruct outcome as [e|content]; [reflexivity|].
  unfold bind, lift.
  destruct content as [| | | |reply_text| |]; try reflexivity.
  simpl. destruct (json_loads reply_text) as [[| | | | | |data]|]; try reflexivity.
  simpl. unfold dict_get_default. now destruct (dict_get data "formula").
Qed.

Lemma generate_market_formulas_reply_handling_witness :
  snd (ResearchSequenceTask.generate_market_formulas Script.task "scooter rentals"
         (Script.start Script.search [ Script.ok Script.empty_object ]))
  = inr (JArray []).
Proof.
  pose (s := Script.start Script.search [ Script.ok Script.empty_object ]).
  pose (prompt := PromptFactory.formula_brainstorm_prompt (JString "scooter rentals")).
  assert (Hchat : ResearchSequenceTask.chat_response Script.task prompt true s =
                    (fst (ResearchSequenceTask.chat_response Script.task prompt true s),
                     inr (JString Script.empty_object)))
    by (vm_compute; reflexivity).
  fold s.
  rewrite (generate_market_formulas_reply_handling Script.task "scooter rentals" prompt
             s _ _ eq_refl Hchat).
  reflexivity.
Defined.

(** X8. [find_data_for_formula] returns whatever JSON value the reply of
    the model parses to, object or not; it raises the exception of the
    request if that failed, [TypeError] when the reply is not a string and
    [JSONDecodeError] when it does not parse. *)
Theorem find_data_for_formula_reply_handling `{Builtins} `{Services}
    (self : ResearchSequenceTask.Task) (formula prompt : string)
    (s s' : state) (outcome : exn + json) :
  PromptFactory.get_prompt "datasource_prompt" [ ("formula", JString formula) ]
    = inr prompt ->
  ResearchSequenceTask.chat_response self prompt true s = (s', outcome) ->
  ResearchSequenceTask.find_data_for_formula self formula s =
    (s',
     match outcome with
     | inl e => inl e
     | inr (JString reply_text) =>
         match json_loads reply_text with
         | None => inl JSONDecodeError
         | Some data => inr data
         end
     | inr _ => inl TypeError
     end).
Proof.
  intros Hprompt Hchat. unfold ResearchSequenceTask.find_data_for_formula.
  rewrite Hprompt. unfold bind at 1. unfold lift at 1. unfold bind at 1.
  rewrite Hchat. destruct outcome as [e|content]; [reflexivity|].
  unfold lift.
  destruct content as [| | | |reply_text| |]; reflexivity.
Qed.

Lemma find_data_for_formula_reply_handling_witness :
  snd (ResearchSequenceTask.find_data_for_formula Script.task "cities * population"
         (Script.start Script.search [ Script.ok Script.empty_array ]))
  = inr (JArray []).
Proof.
  pose (s := Script.start Script.search [ Script.ok Script.empty_array ]).
  pose (prompt := PromptFactory.datasource_prompt (JString "cities * population")).
  assert (Hchat : ResearchSequenceTask.chat_response Script.task prompt true s =
                    (fst (ResearchSequenceTask.chat_response Script.task prompt true s),
                     inr (JString Script.empty_array)))
    by (vm_compute; reflexivity).
  fold s.
  rewrite (find_data_for_formula_reply_handling Script.task "cities * population" prompt
             s _ _ eq_refl Hchat).
  reflexivity.
Defined.

(* ===================================================================== *)
(** * More on the run of one component *)
(* ===================================================================== *)

Lemma dict_keys_or {V} (a b : dict V) :
  dict_keys (dict_or a b) =
    (dict_keys a ++ first_occurrences_from (dict_keys a) (dict_keys b))%list.
Proof.
  unfold dict_or. revert a.
  induction b as [|[k v] b IH]; intros a; simpl.
  - now rewrite app_nil_r.
  - rewrite IH. destruct (existsb (String.eqb k) (dict_keys a)) eqn:E.
    + apply existsb_eqb_In in E. now rewrite (DictFacts.dict_keys_set_old _ _ _ E).
    + apply existsb_eqb_not_In in E.
      rewrite (DictFacts.dict_keys_set_new _ _ _ E), <- app_assoc. simpl.
      do 2 f_equal. apply first_occurrences_from_ext.
      intros x. rewrite in_app_iff. simpl. tauto.
Qed.

Lemma dict_keys_or_NoDup {V} (a b : dict V) :
  NoDup (dict_keys a) -> NoDup (dict_keys (dict_or a b)).
Proof.
  intros Hnd. rewrite dict_keys_or.
  apply NoDup_app; [assumption | apply first_occurrences_from_NoDup|].
  intros k Hk Hin. apply first_occurrences_from_In in Hin. tauto.
Qed.

Lemma collect_results_inr {A} (outcomes : list (exn + A)) (results : list A) :
  ResearchSequenceTask.collect_results outcomes = inr results ->
  outcomes = map inr results.
Proof.
  revert results. induction outcomes as [|[e|a] outcomes IH]; intros results; simpl.
  - now intros [= <-].
  - discriminate.
  - destruct (ResearchSequenceTask.collect_results outcomes) as [e|l]; [discriminate|].
    intros [= <-]. simpl. now rewrite <- (IH l eq_refl).
Qed.

Lemma futures_come_from_citations `{Builtins} `{Services}
    (self : ResearchSequenceTask.Task) (query component : string) (s s2 : state)
    (w : world) (exa_result : AnswerResponse)
    (outcomes : list (exn + ResearchSequenceTask.DataSourceRecord)) :
  ResearchSequenceTask.completed_futures
    (map (fun result => ResearchSequenceTask.exa_data_extraction self result component)
       (citations exa_result))
    (after_search s query w (length (citations exa_result))) = (s2, outcomes) ->
  length outcomes = length (citations exa_result)
  /\ forall o, In o outcomes ->
       exists citation st,
         In citation (citations exa_result)
         /\ snd (ResearchSequenceTask.exa_data_extraction self citation component st) = o.
Proof.
  intros Hpool. split.
  - pose proof (completed_futures_length
                  (map (fun result =>
                          ResearchSequenceTask.exa_data_extraction self result component)
                     (citations exa_result))
                  (after_search s query w (length (citations exa_result)))) as Hlen.
    rewrite Hpool in Hlen. simpl in Hlen. now rewrite Hlen, length_map.
  - intros o Hin.
    pose proof (completed_futures_In
                  (map (fun result =>
                          ResearchSequenceTask.exa_data_extraction self result component)
                     (citations exa_result))
                  (after_search s query w (length (citations exa_result))) o) as Hfrom.
    rewrite Hpool in Hfrom. destruct (Hfrom Hin) as (t & st & Ht & Ho).
    apply in_map_iff in Ht. destruct Ht as (citation & <- & Hcitation).
    now exists citation, st.
Qed.

Lemma run_to_completion_pointwise `{Services} {A B} (f : A -> M B) (l : list A)
    (s s2 : state) (outcomes : list (exn + B)) :
  ResearchSequenceTask.run_to_completion (map f l) s = (s2, outcomes) ->
  Forall2 (fun a o => exists st, snd (f a st) = o) l outcomes.
Proof.
  revert s outcomes. induction l as [|a l IH]; intros s outcomes; simpl.
  - intros [= _ <-]. constructor.
  - destruct (f a s) as [s1 r] eqn:Ha.
    destruct (ResearchSequenceTask.run_to_completion (map f l) s1) as [s3 rs] eqn:Hrest.
    intros [= -> <-]. constructor.
    + exists s. now rewrite Ha.
    + exact (IH s1 rs Hrest).
Qed.

(** X9. When [run_exa_workflow] returns a list, its records are, in some
    order, the records of the extractions of the citations of the search
    answer, every citation extracted exactly once and all of them with a
    record: the extractions run one after the other, in some order of the
    citations, from the state after the search, the k-th record comes from
    the k-th citation in that order, and the list returned is a
    rearrangement of those records.  So it has one record for each
    citation. *)
Theorem run_exa_workflow_one_record_per_citation `{Builtins} `{Services}
    (self : ResearchSequenceTask.Task) (query component : string) (s s' : state)
    (w : world) (exa_result : AnswerResponse)
    (results : list ResearchSequenceTask.DataSourceRecord) :
  exa_answer query (outside s) = (w, inr exa_result) ->
  ResearchSequenceTask.run_exa_workflow self query component s = (s', inr results) ->
  length results = length (citations exa_result)
  /\ (forall record, In record results ->
        exists citation st,
          In citation (citations exa_result)
          /\ snd (ResearchSequenceTask.exa_data_extraction self citation component st)
             = inr record)
  /\ exists started finished s2,
       Permutation (citations exa_result) started
       /\ Permutation finished results
       /\ ResearchSequenceTask.run_to_completion
            (map (fun citation =>
                    ResearchSequenceTask.exa_data_extraction self citation component)
               started)
            (after_search s query w (length (citations exa_result)))
          = (s2, map inr finished)
       /\ s' = printed s2 LogExtractionComplete
       /\ Forall2
            (fun citation record =>
               exists st,
                 snd (ResearchSequenceTask.exa_data_extraction self citation component st)
                 = inr record)
            started finished.
Proof.
  intros Hsearch.
  destruct (ResearchSequenceTask.completed_futures
              (map (fun result =>
                      ResearchSequenceTask.exa_data_extraction self result component)
                 (citations exa_result))
              (after_search s query w (length (citations exa_result))))
    as [s2 outcomes] eqn:Hpool.
  rewrite (run_exa_workflow_outcome self query component s s2 w exa_result outcomes
             Hsearch Hpool).
  destruct (ResearchSequenceTask.collect_results outcomes) as [e|l] eqn:Hcollect;
    [discriminate|].
  intros [= <- <-]. apply collect_results_inr in Hcollect.
  destruct (futures_come_from_citations self query component s s2 w exa_result
              outcomes Hpool) as [Hlen Hfrom].
  split; [|split].
  - now rewrite <- Hlen, Hcollect, length_map.
  - intros record Hin. apply Hfrom. rewrite Hcollect. now apply in_map.
  - unfold ResearchSequenceTask.completed_futures in Hpool.
    destruct (Permutation_map_inv
                (fun citation =>
                   ResearchSequenceTask.exa_data_extraction self citation component)
                (citations exa_result)
                (Permutation_sym
                   (start_order_perm
                      (map (fun citation =>
                              ResearchSequenceTask.exa_data_extraction self citation
                                component)
                         (citations exa_result)))))
      as (started & Hstarted & Hperm).
    rewrite Hstarted in Hpool.
    destruct (ResearchSequenceTask.run_to_completion
                (map (fun citation =>
                        ResearchSequenceTask.exa_data_extraction self citation component)
                   started)
                (after_search s query w (length (citations exa_result))))
      as [s3 raw] eqn:Hraw.
    injection Hpool as -> Hcompleted.
    assert (Hall : Permutation raw (map inr l)).
    { rewrite <- Hcollect, <- Hcompleted. apply as_completed_perm. }
    destruct (Permutation_map_inv inr l Hall) as (finished & -> & Hfinished).
    exists started, finished, s2.
    split; [assumption|]. split; [now apply Permutation_sym|].
    split; [exact Hraw|]. split; [reflexivity|].
    pose proof (run_to_completion_pointwise
                  (fun citation =>
                     ResearchSequenceTask.exa_data_extraction self citation component)
                  started _ _ _ Hraw) as Hpoint.
    clear - Hpoint. remember (map inr finished) as outs eqn:Houts.
    revert finished Houts.
    induction Hpoint as [|citation o started outs Ho Hrest IH]; intros finished Houts.
    + destruct finished; [constructor | discriminate].
    + destruct finished as [|record finished]; [discriminate|].
      injection Houts as -> ->. constructor; [exact Ho | now apply IH].
Qed.

Lemma run_exa_workflow_one_record_per_citation_witness :
  exists results,
    snd (ResearchSequenceTask.run_exa_workflow Script.task "Number of cities"
           "Number of cities"
           (Script.start Script.search
              [ Script.ok Script.synthesis_reply; Script.ok Script.empty_object ]))
    = inr results
    /\ length results = 2.
Proof.
  pose (s := Script.start Script.search
               [ Script.ok Script.synthesis_reply; Script.ok Script.empty_object ]).
  fold s.
  destruct (ResearchSequenceTask.run_exa_workflow Script.task "Number of cities"
              "Number of cities" s) as [s' [e|results]] eqn:Hrun.
  - vm_compute in Hrun. discriminate Hrun.
  - exists results. split; [reflexivity|].
    exact (proj1 (run_exa_workflow_one_record_per_citation Script.task "Number of cities"
                    "Number of cities" s s'
                    {| Script.replies :=
                         [ Script.ok Script.synthesis_reply; Script.ok Script.empty_object ];
                       Script.posted := [] |}
                    {| answer := "310";
                       citations := [ Script.report; Script.report_without_text ] |}
                    results eq_refl Hrun)).
Defined.

(** X10. Every record [exa_data_extraction] returns starts with the keys
    [component], [DATA_SOURCE_NAME], [DATA_SOURCE_LINK] and
    [DATA_SOURCE_TEXT], in this order, whatever the reply of the model
    holds, and has no key twice. *)
Theorem extraction_record_keys `{Builtins} `{Services}
    (self : ResearchSequenceTask.Task) (citation : Citation) (component : string)
    (s s' : state) (record : ResearchSequenceTask.DataSourceRecord) :
  ResearchSequenceTask.exa_data_extraction self citation component s = (s', inr record) ->
  NoDup (dict_keys record)
  /\ exists more,
       dict_keys record =
         ([ "component"; "DATA_SOURCE_NAME"; "DATA_SOURCE_LINK"; "DATA_SOURCE_TEXT" ]
          ++ more)%list.
Proof.
  destruct (ResearchSequenceTask.chat_response self
              (PromptFactory.exa_synthesis_prompt (attribute_value (text citation))
                 (JString component)) true s) as [s1 outcome] eqn:Hchat.
  rewrite (exa_data_extraction_outcome self citation component _ s s1 outcome
             (synthesis_prompt_renders citation component) Hchat).
  destruct outcome as [e|content]; [discriminate|].
  destruct (loads content) as [e|synthesis_json]; [discriminate|].
  destruct synthesis_json as [| | | | | |reply]; try discriminate.
  simpl or_operator. intros [= _ <-]. split.
  - apply dict_keys_or_NoDup. simpl.
    repeat constructor; simpl; intuition discriminate.
  - rewrite dict_keys_or. eexists. reflexivity.
Qed.

Lemma extraction_record_keys_witness :
  exists record,
    snd (ResearchSequenceTask.exa_data_extraction Script.task Script.report_without_text
           "Number of cities"
           (Script.start Script.search [ Script.ok Script.synthesis_reply ]))
    = inr record
    /\ NoDup (dict_keys record).
Proof.
  pose (s := Script.start Script.search [ Script.ok Script.synthesis_reply ]).
  fold s.
  destruct (ResearchSequenceTask.exa_data_extraction Script.task Script.report_without_text
              "Number of cities" s) as [s' [e|record]] eqn:Hrun.
  - vm_compute in Hrun. discriminate Hrun.
  - exists record. split; [reflexivity|].
    exact (proj1 (extraction_record_keys Script.task Script.report_without_text
                    "Number of cities" s s' record Hrun)).
Defined.

(* ===================================================================== *)
(** * More on the batch *)
(* ===================================================================== *)

Lemma in_split_last (c : string) (l : list string) :
  In c l -> exists pre post, l = (pre ++ c :: post)%list /\ ~ In c post.
Proof.
  induction l as [|x l IH]; [intros []|].
  intros Hin. destruct (in_dec string_dec c l) as [Hl|Hl].
  - destruct (IH Hl) as (pre & post & -> & Hpost).
    now exists (x :: pre), post.
  - destruct Hin as [->|Hin]; [|contradiction].
    now exists [], l.
Qed.

(** What the batch holds under a component whose run has the same outcome
    in every state. *)
Lemma batch_records_constant_outcome `{Builtins} `{Services}
    (self : ResearchSequenceTask.Task) (components : list string) (c : string)
    (s : state) (value : ResearchSequenceTask.ComponentResult) :
  In c components ->
  (forall st, recorded (snd (ResearchSequenceTask.run_exa_workflow self c c st)) = value) ->
  exists s' all_results,
    ResearchSequenceTask.run_exa_workflow_for_components_sequential self components s
      = (s', inr all_results)
    /\ dict_get all_results c = Some value.
Proof.
  intros Hin Hvalue.
  destruct (for_each_component_returns self components empty
              (printed s (LogComponents components))) as (s1 & final & Hloop).
  exists (printed s1 LogAllComplete), final.
  split; [now apply run_sequential_outcome|].
  destruct (in_split_last c components Hin) as (pre & post & Hsplit & Hlast).
  rewrite Hsplit in Hloop.
  destruct (for_each_component_split self pre post c empty final _ s1 Hloop)
    as (s0 & d0 & _ & Hturn).
  destruct (ResearchSequenceTask.run_exa_workflow self c c (printed s0 (LogProcessing c)))
    as [s2 outcome] eqn:Hrun.
  destruct (Hturn s2 outcome eq_refl) as [_ Hkept].
  rewrite (Hkept Hlast). f_equal.
  specialize (Hvalue (printed s0 (LogProcessing c))). now rewrite Hrun in Hvalue.
Qed.

(** X11. If the search for a component of the list fails in whatever state
    of the outside, the batch returns a dict that holds [None] under that
    component. *)
Theorem batch_records_failed_search `{Builtins} `{Services}
    (self : ResearchSequenceTask.Task) (components : list string) (c : string)
    (s : state) :
  In c components ->
  (forall w, exists w' e, exa_answer c w = (w', inl e)) ->
  exists s' all_results,
    ResearchSequenceTask.run_exa_workflow_for_components_sequential self components s
      = (s', inr all_results)
    /\ dict_get all_results c = Some None.
Proof.
  intros Hin Hfails.
  apply batch_records_constant_outcome; [assumption|].
  intros st. destruct (Hfails (outside st)) as (w' & e & Hsearch).
  now rewrite (run_exa_workflow_search_fails self c c st w' e Hsearch).
Qed.

Lemma batch_records_failed_search_witness :
  exists s' all_results,
    ResearchSequenceTask.run_exa_workflow_for_components_sequential Script.task
      [ "Nothing"; "BadComponent" ] (Script.start Script.search [])
      = (s', inr all_results)
    /\ dict_get all_results "BadComponent" = Some None.
Proof.
  apply (batch_records_failed_search Script.task [ "Nothing"; "BadComponent" ]
           "BadComponent" (Script.start Script.search [])).
  - simpl. tauto.
  - intros w. exists w, (OtherException "ExaError"). reflexivity.
Defined.

(** X12. If the search for a component of the list finds no citation in
    whatever state of the outside, the batch returns a dict that holds the
    empty list, not [None], under that component. *)
Theorem batch_records_empty_search `{Builtins} `{Services}
    (self : ResearchSequenceTask.Task) (components : list string) (c : string)
    (s : state) :
  In c components ->
  (forall w, exists w' exa_result,
     exa_answer c w = (w', inr exa_result) /\ citations exa_result = []) ->
  exists s' all_results,
    ResearchSequenceTask.run_exa_workflow_for_components_sequential self components s
      = (s', inr all_results)
    /\ dict_get all_results c = Some (Some []).
Proof.
  intros Hin Hnone.
  apply batch_records_constant_outcome; [assumption|].
  intros st. destruct (Hnone (outside st)) as (w' & exa_result & Hsearch & Hempty).
  rewrite (run_exa_workflow_outcome self c c st (after_search st c w' 0) w' exa_result []
             Hsearch).
  - reflexivity.
  - rewrite Hempty. simpl. apply completed_futures_nil.
Qed.

Lemma batch_records_empty_search_witness :
  exists s' all_results,
    ResearchSequenceTask.run_exa_workflow_for_components_sequential Script.task
      [ "Nothing"; "BadComponent" ] (Script.start Script.search [])
      = (s', inr all_results)
    /\ dict_get all_results "Nothing" = Some (Some []).
Proof.
  apply (batch_records_empty_search Script.task [ "Nothing"; "BadComponent" ]
           "Nothing" (Script.start Script.search [])).
  - simpl. tauto.
  - intros w. exists w, {| answer := "none"; citations := [] |}. split; reflexivity.
Defined.

(* ===================================================================== *)
(** * What the batch prints *)
(* ===================================================================== *)

Lemma processing_order_app (a b : list log_line) :
  processing_order (a ++ b) = (processing_order a ++ processing_order b)%list.
Proof.
  induction a as [|l a IH]; simpl; [reflexivity|].
  destruct l; simpl; now rewrite ?IH.
Qed.

Lemma closing_order_app (a b : list log_line) :
  closing_order (a ++ b) = (closing_order a ++ closing_order b)%list.
Proof.
  induction a as [|l a IH]; simpl; [reflexivity|].
  destruct l; simpl; now rewrite ?IH.
Qed.

Section OutputFacts.
Context `{Builtins} `{Services}.
Variable self : ResearchSequenceTask.Task.

Import ResearchSequenceTask.

Lemma chat_response_stdout (prompt : string) (response_json : bool) (s : state) :
  stdout (fst (chat_response self prompt response_json s)) = stdout s.
Proof.
  destruct (requests_post chat_url (chat_headers self)
              (chat_payload self prompt response_json) (outside s))
    as [w answered] eqn:Hpost.
  now rewrite (chat_response_outcome self prompt response_json s w answered Hpost).
Qed.

Lemma exa_data_extraction_stdout (citation : Citation) (component : string) (s : state) :
  stdout (fst (exa_data_extraction self citation component s)) = stdout s.
Proof.
  pose proof (chat_response_stdout
                (PromptFactory.exa_synthesis_prompt (attribute_value (text citation))
                   (JString component)) true s) as Hsame.
  destruct (chat_response self
              (PromptFactory.exa_synthesis_prompt (attribute_value (text citation))
                 (JString component)) true s) as [s1 outcome] eqn:Hchat.
  now rewrite (exa_data_extraction_outcome self citation component _ s s1 outcome
                 (synthesis_prompt_renders citation component) Hchat).
Qed.

Lemma run_to_completion_stdout {A} (tasks : list (M A)) (s : state) :
  (forall t, In t tasks -> forall st, stdout (fst (t st)) = stdout st) ->
  stdout (fst (run_to_completion tasks s)) = stdout s.
Proof.
  revert s. induction tasks as [|t tasks IH]; intros s Hquiet; simpl; [reflexivity|].
  pose proof (Hquiet t (or_introl eq_refl) s) as Ht.
  destruct (t s) as [s1 r].
  specialize (IH s1 (fun t' Hin => Hquiet t' (or_intror Hin))).
  destruct (run_to_completion tasks s1) as [s2 rs].
  simpl in *. congruence.
Qed.

Lemma completed_futures_stdout {A} (tasks : list (M A)) (s : state) :
  (forall t, In t tasks -> forall st, stdout (fst (t st)) = stdout st) ->
  stdout (fst (completed_futures tasks s)) = stdout s.
Proof.
  intros Hquiet. unfold completed_futures.
  assert (Hstart : forall t, In t (start_order tasks) ->
                             forall st, stdout (fst (t st)) = stdout st).
  { intros t Hin. apply Hquiet.
    apply (Permutation_in t (Permutation_sym (start_order_perm tasks))), Hin. }
  pose proof (run_to_completion_stdout (start_order tasks) s Hstart) as Hsame.
  now destruct (run_to_completion (start_order tasks) s).
Qed.

(** The lines of one run: none of them opens or closes a component. *)
Lemma run_exa_workflow_lines (query component : string) (s : state) :
  exists lines,
    stdout (fst (run_exa_workflow self query component s)) = (stdout s ++ lines)%list
    /\ processing_order lines = []
    /\ closing_order lines = [].
Proof.
  destruct (exa_answer query (outside s)) as [w [e|exa_result]] eqn:Hsearch.
  - rewrite (run_exa_workflow_search_fails self query component s w e Hsearch).
    exists [LogRunningSearch query]. now repeat split.
  - pose proof (completed_futures_stdout
                  (map (fun result => exa_data_extraction self result component)
                     (citations exa_result))
                  (after_search s query w (length (citations exa_result)))) as Hpoolout.
    destruct (completed_futures
                (map (fun result => exa_data_extraction self result component)
                   (citations exa_result))
                (after_search s query w (length (citations exa_result))))
      as [s2 outcomes] eqn:Hpool.
    simpl in Hpoolout.
    assert (Hs2 : stdout s2 =
                    (stdout s ++ [ LogRunningSearch query;
                                   LogRetrieved (length (citations exa_result));
                                   LogStartingExtraction ])%list).
    { rewrite Hpoolout.
      - unfold after_search, printed. simpl. now rewrite <- !app_assoc.
      - intros t Hin st. apply in_map_iff in Hin. destruct Hin as (citation & <- & _).
        apply exa_data_extraction_stdout. }
    rewrite (run_exa_workflow_outcome self query component s s2 w exa_result outcomes
               Hsearch Hpool).
    destruct (collect_results outcomes) as [e|results].
    + eexists. split; [exact Hs2 | now split].
    + exists [ LogRunningSearch query; LogRetrieved (length (citations exa_result));
               LogStartingExtraction; LogExtractionComplete ].
      split; [|now split]. unfold printed. simpl. rewrite Hs2. now rewrite <- app_assoc.
Qed.

(** The lines of the loop: one opening and one closing line for each
    component, in the order of the list; and what the dict has gained is
    told by a closing line. *)
Lemma for_each_component_lines (components : list string)
    (all_results final : dict ComponentResult) (s s' : state) :
  for_each_component self components all_results s = (s', inr final) ->
  exists lines,
    stdout s' = (stdout s ++ lines)%list
    /\ processing_order lines = components
    /\ map fst (closing_order lines) = components
    /\ (forall c, dict_get final c = Some None ->
          dict_get all_results c = Some None \/ In (c, false) (closing_order lines))
    /\ (forall c df, dict_get final c = Some (Some df) ->
          dict_get all_results c = Some (Some df) \/ In (c, true) (closing_order lines)).
Proof.
  revert all_results s.
  induction components as [|c0 components IH]; intros all_results s.
  - simpl. unfold ret. intros [= <- <-]. exists []. rewrite app_nil_r.
    repeat split; auto.
  - destruct (run_exa_workflow_lines c0 c0 (printed s (LogProcessing c0)))
      as (runlines & Hrunlines & Hopen & Hclose).
    destruct (run_exa_workflow self c0 c0 (printed s (LogProcessing c0)))
      as [s1 outcome] eqn:Hrun.
    rewrite (for_each_component_cons self c0 components all_results s s1 outcome Hrun).
    intros Hrest.
    destruct (IH _ _ Hrest) as (lines & Hout & Hopens & Hcloses & Hnone & Hsome).
    simpl in Hrunlines.
    assert (Hcloser : exists closer flag,
               stdout (after_component s1 c0 outcome) = (stdout s1 ++ [closer])%list
               /\ processing_order [closer] = []
               /\ closing_order [closer] = [(c0, flag)]
               /\ (flag = false <-> recorded outcome = None)).
    { destruct outcome as [e|df].
      - exists (LogFailed c0 e), false. repeat split; auto.
      - exists (LogCompleted c0), true. repeat split; discriminate. }
    destruct Hcloser as (closer & flag & Hafter & Hcopen & Hcclose & Hflag).
    assert (Hshape : (LogProcessing c0 :: runlines ++ closer :: lines
                      = [LogProcessing c0] ++ runlines ++ [closer] ++ lines)%list)
      by reflexivity.
    assert (Hpo : processing_order (LogProcessing c0 :: runlines ++ closer :: lines)
                  = c0 :: components).
    { rewrite Hshape, !processing_order_app, Hopen, Hcopen, Hopens. reflexivity. }
    assert (Hco : closing_order (LogProcessing c0 :: runlines ++ closer :: lines)
                  = (c0, flag) :: closing_order lines).
    { rewrite Hshape, !closing_order_app, Hclose, Hcclose. reflexivity. }
    exists (LogProcessing c0 :: runlines ++ closer :: lines)%list.
    rewrite Hpo, Hco.
    split; [|split; [reflexivity|split; [|split]]].
    + rewrite Hout, Hafter, Hrunlines. unfold printed. simpl.
      rewrite <- !app_assoc. reflexivity.
    + simpl. now rewrite Hcloses.
    + intros c Hc.
      destruct (Hnone c Hc) as [Hset|Hin]; [|now right; right].
      destruct (string_dec c c0) as [->|Hne].
      * rewrite DictFacts.dict_get_set_eq in Hset. injection Hset as Hset.
        apply Hflag in Hset. subst flag. right. now left.
      * rewrite (DictFacts.dict_get_set_neq _ _ _ _ Hne) in Hset. now left.
    + intros c df Hc.
      destruct (Hsome c df Hc) as [Hset|Hin]; [|now right; right].
      destruct (string_dec c c0) as [->|Hne].
      * rewrite DictFacts.dict_get_set_eq in Hset. injection Hset as Hset.
        destruct flag; [right; now left|].
        rewrite (proj1 Hflag eq_refl) in Hset. discriminate Hset.
      * rewrite (DictFacts.dict_get_set_neq _ _ _ _ Hne) in Hset. now left.
Qed.

End OutputFacts.

(** X13. The batch prints the list of components first and the closing
    line last, and in between one opening line and one closing line for
    each component of the list, both in the order of the list.  Every
    [None] in the returned dict comes with a line that reports the failure
    of that component, and every list with a line that reports its
    completion. *)
Theorem batch_log_accounts_for_results `{Builtins} `{Services}
    (self : ResearchSequenceTask.Task) (components : list string) (s : state) :
  exists s' all_results lines,
    ResearchSequenceTask.run_exa_workflow_for_components_sequential self components s
      = (s', inr all_results)
    /\ stdout s' =
         (stdout s ++ LogComponents components :: lines ++ [LogAllComplete])%list
    /\ processing_order lines = components
    /\ map fst (closing_order lines) = components
    /\ (forall c, dict_get all_results c = Some None -> In (c, false) (closing_order lines))
    /\ (forall c df, dict_get all_results c = Some (Some df) ->
          In (c, true) (closing_order lines)).
Proof.
  destruct (for_each_component_returns self components empty
              (printed s (LogComponents components))) as (s1 & final & Hloop).
  destruct (for_each_component_lines self components empty final _ s1 Hloop)
    as (lines & Hout & Hopens & Hcloses & Hnone & Hsome).
  exists (printed s1 LogAllComplete), final, lines.
  split; [now apply run_sequential_outcome|].
  split; [|split; [assumption|split; [assumption|split]]].
  - unfold printed in *. simpl in *. rewrite Hout, <- !app_assoc. reflexivity.
  - intros c Hc. destruct (Hnone c Hc) as [Habs|Hin]; [discriminate Habs | exact Hin].
  - intros c df Hc. destruct (Hsome c df Hc) as [Habs|Hin]; [discriminate Habs | exact Hin].
Qed.

Lemma batch_log_accounts_for_results_witness :
  exists s' all_results lines,
    ResearchSequenceTask.run_exa_workflow_for_components_sequential Script.task
      [ "BadComponent"; "Nothing" ] (Script.start Script.search [])
      = (s', inr all_results)
    /\ processing_order lines = [ "BadComponent"; "Nothing" ]
    /\ In ("BadComponent", false) (closing_order lines).
Proof.
  destruct (batch_log_accounts_for_results Script.task [ "BadComponent"; "Nothing" ]
              (Script.start Script.search []))
    as (s' & all_results & lines & Hrun & _ & Hopens & _ & Hnone & _).
  exists s', all_results, lines. split; [exact Hrun|]. split; [exact Hopens|].
  apply Hnone. vm_compute in Hrun. injection Hrun as _ <-. reflexivity.
Defined.

(* ===================================================================== *)
(** * The output is only appended to *)
(* ===================================================================== *)

Section AppendsOnly.
Context `{Builtins} `{Services}.

Lemma appends_only_ret {A} (a : A) : appends_only (ret a).
Proof. intros w out. unfold ret. simpl. now rewrite app_nil_r. Qed.

Lemma appends_only_lift {A} (r : exn + A) : appends_only (lift r).
Proof. intros w out. unfold lift. simpl. now rewrite app_nil_r. Qed.

Lemma appends_only_print (l : log_line) : appends_only (print l).
Proof. intros w out. reflexivity. Qed.

Lemma appends_only_call {A} (f : world -> world * (exn + A)) : appends_only (call f).
Proof.
  intros w out. unfold call. simpl. destruct (f w) as [w' r]. simpl.
  now rewrite app_nil_r.
Qed.

Lemma appends_only_bind {A B} (c : M A) (k : A -> M B) :
  appends_only c -> (forall a, appends_only (k a)) -> appends_only (bind c k).
Proof.
  intros Hc Hk w out. unfold bind. rewrite (Hc w out).
  destruct (c {| outside := w; stdout := [] |}) as [[w1 l1] [e|a]]; simpl.
  - reflexivity.
  - rewrite (Hk a w1 (out ++ l1)%list), (Hk a w1 l1).
    destruct (k a {| outside := w1; stdout := [] |}) as [s2 r2]. simpl.
    now rewrite app_assoc.
Qed.

Lemma appends_only_try_except {A} (c : M A) (h : exn -> M A) :
  appends_only c -> (forall e, appends_only (h e)) -> appends_only (try_except c h).
Proof.
  intros Hc Hh w out. unfold try_except. rewrite (Hc w out).
  destruct (c {| outside := w; stdout := [] |}) as [[w1 l1] [e|a]]; simpl.
  - rewrite (Hh e w1 (out ++ l1)%list), (Hh e w1 l1).
    destruct (h e {| outside := w1; stdout := [] |}) as [s2 r2]. simpl.
    now rewrite app_assoc.
  - reflexivity.
Qed.

Lemma appends_only_run_to_completion {A} (tasks : list (M A)) :
  (forall t, In t tasks -> appends_only t) ->
  forall w out,
    ResearchSequenceTask.run_to_completion tasks {| outside := w; stdout := out |} =
      (let (s', rs) :=
         ResearchSequenceTask.run_to_completion tasks {| outside := w; stdout := [] |} in
       ({| outside := outside s'; stdout := out ++ stdout s' |}, rs)).
Proof.
  induction tasks as [|t tasks IH]; intros Htasks w out; simpl.
  - now rewrite app_nil_r.
  - rewrite (Htasks t (or_introl eq_refl) w out).
    destruct (t {| outside := w; stdout := [] |}) as [[w1 l1] r].
    simpl.
    rewrite (IH (fun t' Hin => Htasks t' (or_intror Hin)) w1 (out ++ l1)%list).
    rewrite (IH (fun t' Hin => Htasks t' (or_intror Hin)) w1 l1).
    destruct (ResearchSequenceTask.run_to_completion tasks
                {| outside := w1; stdout := [] |}) as [s2 rs]. simpl.
    now rewrite app_assoc.
Qed.

Variable self : ResearchSequenceTask.Task.

Import ResearchSequenceTask.

Lemma appends_only_chat_response (prompt : string) (response_json : bool) :
  appends_only (chat_response self prompt response_json).
Proof.
  unfold chat_response. cbv zeta.
  repeat (apply appends_only_bind; [|intros ?]);
    first [ apply appends_only_call | apply appends_only_lift ].
Qed.

Lemma appends_only_generate_market_formulas (market_description : string) :
  appends_only (generate_market_formulas self market_description).
Proof.
  unfold generate_market_formulas.
  repeat (apply appends_only_bind; [|intros ?]);
    first [ apply appends_only_chat_response | apply appends_only_lift
          | apply appends_only_call ].
Qed.

Lemma appends_only_get_components_from_formula (formula : string) :
  appends_only (get_components_from_formula self formula).
Proof.
  unfold get_components_from_formula.
  repeat (apply appends_only_bind; [|intros ?]);
    try first [ apply appends_only_chat_response | apply appends_only_lift
          | apply appends_only_call ].
  match goal with
  | |- appends_only (match ?v with _ => _ end) =>
      destruct v;
        first [ apply appends_only_ret
              | apply appends_only_bind;
                [ apply appends_only_print | intros ?; apply appends_only_ret ] ]
  end.
Qed.

Lemma appends_only_exa_data_extraction (citation : Citation) (component : string) :
  appends_only (exa_data_extraction self citation component).
Proof.
  unfold exa_data_extraction. cbv zeta.
  repeat (apply appends_only_bind; [|intros ?]);
    first [ apply appends_only_chat_response | apply appends_only_lift
          | apply appends_only_call ].
Qed.

Lemma appends_only_parallel_exa_extraction (exa_results : list Citation)
    (component : string) :
  appends_only (parallel_exa_extraction self exa_results component).
Proof.
  intros w out. unfold parallel_exa_extraction, completed_futures.
  rewrite appends_only_run_to_completion.
  - destruct (run_to_completion
                (start_order
                   (map (fun result => exa_data_extraction self result component)
                      exa_results))
                {| outside := w; stdout := [] |}) as [s' outcomes].
    reflexivity.
  - intros t Hin.
    apply (Permutation_in t (Permutation_sym (start_order_perm _))) in Hin.
    apply in_map_iff in Hin. destruct Hin as (citation & <- & _).
    apply appends_only_exa_data_extraction.
Qed.

Lemma appends_only_run_exa_workflow (query component : string) :
  appends_only (run_exa_workflow self query component).
Proof.
  unfold run_exa_workflow, exa_search.
  repeat (apply appends_only_bind; [|intros ?]);
    first [ apply appends_only_print | apply appends_only_call
          | apply appends_only_parallel_exa_extraction | apply appends_only_ret
          | apply appends_only_lift ].
Qed.

Lemma appends_only_process_component (all_results : dict ComponentResult)
    (component : string) :
  appends_only (process_component self all_results component).
Proof.
  unfold process_component.
  apply appends_only_bind; [apply appends_only_print | intros _].
  apply appends_only_try_except.
  - apply appends_only_bind; [apply appends_only_run_exa_workflow | intros df].
    apply appends_only_bind; [apply appends_only_print | intros _; apply appends_only_ret].
  - intros e.
    apply appends_only_bind; [apply appends_only_print | intros _; apply appends_only_ret].
Qed.

Lemma appends_only_for_each_component (components : list string)
    (all_results : dict ComponentResult) :
  appends_only (for_each_component self components all_results).
Proof.
  revert all_results. induction components as [|c components IH]; intros all_results.
  - apply appends_only_ret.
  - simpl. apply appends_only_bind; [apply appends_only_process_component | apply IH].
Qed.

End AppendsOnly.

(** The three methods the handler calls only append to the output, which
    is why [run_method] may run them from an empty one. *)
Lemma task_methods_append_only `{Builtins} `{Services}
    (self : ResearchSequenceTask.Task) :
  (forall market_description,
     appends_only (ResearchSequenceTask.generate_market_formulas self market_description))
  /\ (forall formula,
        appends_only (ResearchSequenceTask.get_components_from_formula self formula))
  /\ (forall components,
        appends_only
          (ResearchSequenceTask.run_exa_workflow_for_components_sequential self components)).
Proof.
  split; [|split].
  - apply appends_only_generate_market_formulas.
  - apply appends_only_get_components_from_formula.
  - intros components. unfold ResearchSequenceTask.run_exa_workflow_for_components_sequential.
    apply appends_only_bind; [apply appends_only_print | intros _].
    apply appends_only_bind; [apply appends_only_for_each_component | intros d].
    apply appends_only_bind; [apply appends_only_print | intros _; apply appends_only_ret].
Qed.

(* ===================================================================== *)
(** * The handler *)
(* ===================================================================== *)

(** Runs the handler up to the next test it makes. *)
Ltac step_handler :=
  unfold LambdaFunction.lambda_handler, LambdaFunction.brainstorm,
    LambdaFunction.decompose, LambdaFunction.datasource,
    LambdaFunction.try_except_JSONDecodeError,
    LambdaFunction.hbind, LambdaFunction.hlift, LambdaFunction.hprint,
    LambdaFunction.hret;
  unfold is_preflight, query_parameters, request_body, event_get in *;
  cbn [get_method].

(** X15. A preflight request, whose [httpMethod] is [OPTIONS], is answered
    with status 200 and the body for [message: OK] before anything else
    of the event is looked at: the query parameters may be missing or
    ill-formed, the task is not called and the outside is not touched. *)
Theorem handler_answers_preflight `{Builtins} `{Runtime} `{Services}
    (task : LambdaFunction.TaskObject) (e : dict json) (context : json)
    (i : LambdaFunction.invocation) :
  is_preflight e = true ->
  exists i',
    LambdaFunction.lambda_handler task (JObject e) context i =
      (i', inr (LambdaFunction._response 200 [ ("message", JString "OK") ]))
    /\ LambdaFunction.reached i' = LambdaFunction.reached i.
Proof.
  intros Hpre. step_handler. rewrite Hpre.
  eexists. split; reflexivity.
Qed.

Lemma handler_answers_preflight_witness :
  exists i',
    LambdaFunction.lambda_handler ScriptedHandler.task
      (ScriptedHandler.event "OPTIONS" [] JNull) JNull (ScriptedHandler.start [])
    = (i', inr (LambdaFunction._response 200 [ ("message", JString "OK") ])).
Proof.
  destruct (handler_answers_preflight ScriptedHandler.task
              [ ("httpMethod", JString "OPTIONS");
                ("queryStringParameters", JObject []); ("body", JNull) ]
              JNull (ScriptedHandler.start []) eq_refl) as (i' & Hrun & _).
  exists i'. exact Hrun.
Defined.

(** X16. A request that is no preflight and gives no action, because it
    has no query parameters or because [action] is missing or empty among
    them, is answered with status 400; the task is not called. *)
Theorem handler_requires_action `{Builtins} `{Runtime} `{Services}
    (task : LambdaFunction.TaskObject) (e params : dict json) (context : json)
    (i : LambdaFunction.invocation) :
  is_preflight e = false ->
  query_parameters e = JObject params ->
  truthy (event_get params "action") = false ->
  exists i',
    LambdaFunction.lambda_handler task (JObject e) context i =
      (i',
       inr (LambdaFunction._response 400
              [ ("error", JString "Missing required query parameter: action") ]))
    /\ LambdaFunction.reached i' = LambdaFunction.reached i.
Proof.
  intros Hpre Hparams Haction. step_handler.
  rewrite Hpre, Hparams. cbn [get_method]. rewrite Haction.
  eexists. split; reflexivity.
Qed.

Lemma handler_requires_action_witness :
  exists i',
    LambdaFunction.lambda_handler ScriptedHandler.task
      (ScriptedHandler.event "GET" [] JNull) JNull (ScriptedHandler.start [])
    = (i',
       inr (LambdaFunction._response 400
              [ ("error", JString "Missing required query parameter: action") ])).
Proof.
  destruct (handler_requires_action ScriptedHandler.task
              [ ("httpMethod", JString "GET");
                ("queryStringParameters", JObject []); ("body", JNull) ]
              [] JNull (ScriptedHandler.start []) eq_refl eq_refl eq_refl)
    as (i' & Hrun & _).
  exists i'. exact Hrun.
Defined.

(** X17. A request whose action is none of [brainstorm], [decompose] and
    [datasource] is answered with status 400 and an error that names the
    action; the task is not called. *)
Theorem handler_rejects_unknown_action `{Builtins} `{Runtime} `{Services}
    (task : LambdaFunction.TaskObject) (e params : dict json) (context : json)
    (i : LambdaFunction.invocation) :
  is_preflight e = false ->
  query_parameters e = JObject params ->
  truthy (event_get params "action") = true ->
  equals_str (event_get params "action") "brainstorm" = false ->
  equals_str (event_get params "action") "decompose" = false ->
  equals_str (event_get params "action") "datasource" = false ->
  exists i',
    LambdaFunction.lambda_handler task (JObject e) context i =
      (i',
       inr (LambdaFunction._response 400
              [ ("error",
                 JString ("Unknown action: " ++ py_str (event_get params "action"))) ]))
    /\ LambdaFunction.reached i' = LambdaFunction.reached i.
Proof.
  intros Hpre Hparams Haction Hb Hd Hs. step_handler.
  rewrite Hpre, Hparams. cbn [get_method]. rewrite Haction, Hb, Hd, Hs.
  eexists. split; reflexivity.
Qed.

Lemma handler_rejects_unknown_action_witness :
  exists i',
    LambdaFunction.lambda_handler ScriptedHandler.task
      (ScriptedHandler.event "GET" [ ("action", JString "clarify") ] JNull) JNull
      (ScriptedHandler.start [])
    = (i',
       inr (LambdaFunction._response 400
              [ ("error", JString "Unknown action: clarify") ])).
Proof.
  destruct (handler_rejects_unknown_action ScriptedHandler.task
              [ ("httpMethod", JString "GET");
                ("queryStringParameters", JObject [ ("action", JString "clarify") ]);
                ("body", JNull) ]
              [ ("action", JString "clarify") ] JNull (ScriptedHandler.start [])
              eq_refl eq_refl eq_refl eq_refl eq_refl eq_refl)
    as (i' & Hrun & _).
  exists i'. exact Hrun.
Defined.

(** X18. A [brainstorm] request without a market description and a
    [decompose] request without a formula (missing or empty) are answered
    with status 400; the task is not called. *)
Theorem handler_requires_parameter `{Builtins} `{Runtime} `{Services}
    (task : LambdaFunction.TaskObject) (e params : dict json) (context : json)
    (i : LambdaFunction.invocation) :
  is_preflight e = false ->
  query_parameters e = JObject params ->
  (event_get params "action" = JString "brainstorm" ->
   truthy (event_get params "market_description") = false ->
   exists i',
     LambdaFunction.lambda_handler task (JObject e) context i =
       (i',
        inr (LambdaFunction._response 400
               [ ("error", JString "Missing 'market_description' for brainstorm action") ]))
     /\ LambdaFunction.reached i' = LambdaFunction.reached i)
  /\ (event_get params "action" = JString "decompose" ->
      truthy (event_get params "formula") = false ->
      exists i',
        LambdaFunction.lambda_handler task (JObject e) context i =
          (i',
           inr (LambdaFunction._response 400
                  [ ("error", JString "Missing 'formula' for decompose action") ]))
        /\ LambdaFunction.reached i' = LambdaFunction.reached i).
Proof.
  intros Hpre Hparams. split; intros Haction Hmissing; step_handler;
    rewrite Hpre, Hparams; cbn [get_method]; rewrite Haction; simpl;
    cbn [get_method]; rewrite Hmissing; eexists; split; reflexivity.
Qed.

Lemma handler_requires_parameter_witness :
  exists i',
    LambdaFunction.lambda_handler ScriptedHandler.task
      (ScriptedHandler.event "GET"
         [ ("action", JString "decompose"); ("formula", JString EmptyString) ] JNull)
      JNull (ScriptedHandler.start [])
    = (i',
       inr (LambdaFunction._response 400
              [ ("error", JString "Missing 'formula' for decompose action") ])).
Proof.
  destruct (handler_requires_parameter ScriptedHandler.task
              [ ("httpMethod", JString "GET");
                ("queryStringParameters",
                 JObject [ ("action", JString "decompose");
                           ("formula", JString EmptyString) ]);
                ("body", JNull) ]
              [ ("action", JString "decompose"); ("formula", JString EmptyString) ]
              JNull (ScriptedHandler.start []) eq_refl eq_refl) as [_ Hdecompose].
  destruct (Hdecompose eq_refl eq_refl) as (i' & Hrun & _).
  exists i'. exact Hrun.
Defined.

(** X19. A [datasource] request is answered with status 400, without a
    call of the task, when its body is a text that is not JSON, and when
    the body is a JSON object whose [components] is missing or is not a
    list. *)
Theorem handler_rejects_bad_body `{Builtins} `{Runtime} `{Services}
    (task : LambdaFunction.TaskObject) (e params : dict json) (context : json)
    (i : LambdaFunction.invocation) (text : string) :
  is_preflight e = false ->
  query_parameters e = JObject params ->
  event_get params "action" = JString "datasource" ->
  request_body e = JString text ->
  (json_loads text = None ->
   exists i',
     LambdaFunction.lambda_handler task (JObject e) context i =
       (i',
        inr (LambdaFunction._response 400
               [ ("error", JString "Invalid JSON in request body") ]))
     /\ LambdaFunction.reached i' = LambdaFunction.reached i)
  /\ (forall body,
        json_loads text = Some (JObject body) ->
        (forall items, event_get body "components" <> JArray items) ->
        exists i',
          LambdaFunction.lambda_handler task (JObject e) context i =
            (i',
             inr (LambdaFunction._response 400
                    [ ("error",
                       JString "'components' must be a list in the request body") ]))
          /\ LambdaFunction.reached i' = LambdaFunction.reached i).
Proof.
  intros Hpre Hparams Haction Hbody. split.
  - intros Hloads. step_handler.
    rewrite Hpre, Hparams. cbn [get_method]. rewrite Haction. simpl.
    rewrite Hbody. unfold loads. rewrite Hloads.
    eexists. split; reflexivity.
  - intros body Hloads Hnolist. step_handler.
    rewrite Hpre, Hparams. cbn [get_method]. rewrite Haction. simpl.
    rewrite Hbody. unfold loads. rewrite Hloads. cbn [get_method].
    destruct (dict_get_default body "components" JNull) as [| | | | |items|] eqn:Hc;
      try (eexists; split; reflexivity).
    exfalso. exact (Hnolist items eq_refl).
Qed.

Lemma handler_rejects_bad_body_witness :
  exists i',
    LambdaFunction.lambda_handler ScriptedHandler.task
      (ScriptedHandler.event "POST" [ ("action", JString "datasource") ] JNull) JNull
      (ScriptedHandler.start [])
    = (i',
       inr (LambdaFunction._response 400
              [ ("error", JString "'components' must be a list in the request body") ])).
Proof.
  destruct (handler_rejects_bad_body ScriptedHandler.task
              [ ("httpMethod", JString "POST");
                ("queryStringParameters", JObject [ ("action", JString "datasource") ]);
                ("body", JNull) ]
              [ ("action", JString "datasource") ] JNull (ScriptedHandler.start [])
              "{}" eq_refl eq_refl eq_refl eq_refl) as [_ Hnolist].
  destruct (Hnolist [] eq_refl) as (i' & Hrun & _).
  - intros items Habs. discriminate Habs.
  - exists i'. exact Hrun.
Defined.

(** X20. The handler raises, and so returns no response at all, when the
    event is not a dict ([AttributeError]), and on a [datasource] request
    whose body is not a string ([TypeError]) or is JSON text for something
    other than an object ([AttributeError]): only a decoding error is
    caught. *)
Theorem handler_raises_on_ill_typed_input `{Builtins} `{Runtime} `{Services}
    (task : LambdaFunction.TaskObject) (context : json) (i : LambdaFunction.invocation) :
  (forall event, (forall e, event <> JObject e) ->
     snd (LambdaFunction.lambda_handler task event context i) = inl AttributeError)
  /\ (forall e params,
        is_preflight e = false ->
        query_parameters e = JObject params ->
        event_get params "action" = JString "datasource" ->
        (forall text, request_body e <> JString text) ->
        snd (LambdaFunction.lambda_handler task (JObject e) context i) = inl TypeError)
  /\ (forall e params text body,
        is_preflight e = false ->
        query_parameters e = JObject params ->
        event_get params "action" = JString "datasource" ->
        request_body e = JString text ->
        json_loads text = Some body ->
        (forall members, body <> JObject members) ->
        snd (LambdaFunction.lambda_handler task (JObject e) context i)
          = inl AttributeError).
Proof.
  split; [|split].
  - intros event Hnodict.
    destruct event as [| | | | | |e]; try reflexivity.
    exfalso. exact (Hnodict e eq_refl).
  - intros e params Hpre Hparams Haction Hbody. step_handler.
    rewrite Hpre, Hparams. cbn [get_method]. rewrite Haction. simpl.
    destruct (or_else (dict_get_default e "body" JNull) (JString "{}"))
      as [| | | |text| |] eqn:Hb; try reflexivity.
    exfalso. exact (Hbody text eq_refl).
  - intros e params text body Hpre Hparams Haction Hbody Hloads Hnoobject. step_handler.
    rewrite Hpre, Hparams. cbn [get_method]. rewrite Haction. simpl.
    rewrite Hbody. unfold loads. rewrite Hloads.
    destruct body as [| | | | | |members]; try reflexivity.
    exfalso. exact (Hnoobject members eq_refl).
Qed.

Lemma handler_raises_on_ill_typed_input_witness :
  snd (LambdaFunction.lambda_handler ScriptedHandler.task
         (ScriptedHandler.event "POST" [ ("action", JString "datasource") ]
            (JString Script.empty_array))
         JNull (ScriptedHandler.start []))
  = inl AttributeError.
Proof.
  destruct (handler_raises_on_ill_typed_input ScriptedHandler.task JNull
              (ScriptedHandler.start [])) as (_ & _ & Hnoobject).
  apply (Hnoobject
           [ ("httpMethod", JString "POST");
             ("queryStringParameters", JObject [ ("action", JString "datasource") ]);
             ("body", JString Script.empty_array) ]
           [ ("action", JString "datasource") ] Script.empty_array (JArray [])
           eq_refl eq_refl eq_refl eq_refl eq_refl).
  intros members Habs. discriminate Habs.
Defined.

Ltac step_handler_in Hrun :=
  unfold LambdaFunction.lambda_handler, LambdaFunction.brainstorm,
    LambdaFunction.decompose, LambdaFunction.datasource,
    LambdaFunction.try_except_JSONDecodeError,
    LambdaFunction.hbind, LambdaFunction.hlift, LambdaFunction.hprint,
    LambdaFunction.hret in Hrun;
  cbn [get_method] in Hrun.

(** Splits on every test the handler makes on its way to [Hrun]. *)
Ltac split_handler Hrun :=
  repeat
    (match type of Hrun with
     | context [if ?b then _ else _] => destruct b eqn:?
     | context [match loads ?x with _ => _ end] =>
         destruct (loads x) as [[]|] eqn:?
     | context [match get_method ?x ?k ?d with _ => _ end] =>
         destruct (get_method x k d) eqn:?
     | context [LambdaFunction.generate_market_formulas ?t ?a ?j] =>
         destruct (LambdaFunction.generate_market_formulas t a j) as [? [?|?]] eqn:?
     | context [LambdaFunction.get_components_from_formula ?t ?a ?j] =>
         destruct (LambdaFunction.get_components_from_formula t a j) as [? [?|?]] eqn:?
     | context [LambdaFunction.run_exa_workflow_for_components_sequential ?t ?a ?j] =>
         destruct (LambdaFunction.run_exa_workflow_for_components_sequential t a j)
           as [? [?|?]] eqn:?
     | context [match ?x with _ => _ end] => is_var x; destruct x
     end;
     cbn [get_method fst snd] in Hrun;
     try discriminate Hrun).

(** X21. Whatever the task object does, a response the handler returns
    has status 200 or 400, the four fixed headers and a text as body; and
    when the status is 400 the outside is as it was, so a refused request
    has cost no call. *)
Theorem handler_response_shape `{Builtins} `{Runtime} `{Services}
    (task : LambdaFunction.TaskObject) (event context : json)
    (i i' : LambdaFunction.invocation) (response : json) :
  LambdaFunction.lambda_handler task event context i = (i', inr response) ->
  exists status_code body_dict,
    response = LambdaFunction._response status_code body_dict
    /\ (status_code = 200 \/ status_code = 400)%Z
    /\ (status_code = 400%Z -> LambdaFunction.reached i' = LambdaFunction.reached i)
    /\ getitem_str response "statusCode" = inr (JInt status_code)
    /\ getitem_str response "headers" =
         inr (JObject
                [ ("Content-Type", JString "application/json");
                  ("Access-Control-Allow-Origin", JString "*");
                  ("Access-Control-Allow-Headers",
                   JString "Content-Type,X-Amz-Date,Authorization,X-Api-Key,X-Amz-Security-Token");
                  ("Access-Control-Allow-Methods", JString "GET,POST,OPTIONS") ])
    /\ getitem_str response "body" = inr (JString (json_dumps (JObject body_dict))).
Proof.
  intros Hrun.
  assert (Hshape : exists status_code body_dict,
             response = LambdaFunction._response status_code body_dict
             /\ (status_code = 200 \/ status_code = 400)%Z
             /\ (status_code = 400%Z ->
                 LambdaFunction.reached i' = LambdaFunction.reached i)).
  { step_handler_in Hrun. split_handler Hrun.
    all: injection Hrun as <- <-.
    all: eexists; eexists; split; [reflexivity|].
    all: split; [first [now left | now right] | try reflexivity].
    all: intros Hcode; discriminate Hcode. }
  destruct Hshape as (status_code & body_dict & -> & Hcode & Hsame).
  exists status_code, body_dict. repeat split; assumption.
Qed.

Lemma handler_response_shape_witness :
  exists i' response status_code,
    LambdaFunction.lambda_handler ScriptedHandler.task
      (ScriptedHandler.event "GET" [ ("action", JString "clarify") ] JNull) JNull
      (ScriptedHandler.start [])
    = (i', inr response)
    /\ getitem_str response "statusCode" = inr (JInt status_code)
    /\ (status_code = 200 \/ status_code = 400)%Z.
Proof.
  destruct (LambdaFunction.lambda_handler ScriptedHandler.task
              (ScriptedHandler.event "GET" [ ("action", JString "clarify") ] JNull) JNull
              (ScriptedHandler.start [])) as [i' [e|response]] eqn:Hrun.
  - vm_compute in Hrun. discriminate Hrun.
  - destruct (handler_response_shape ScriptedHandler.task _ _ _ _ _ Hrun)
      as (status_code & body_dict & _ & Hcode & _ & Hstatus & _).
    exists i', response, status_code. split; [reflexivity|]. split; assumption.
Defined.

(** X22. On a [brainstorm] request with a market description and on a
    [decompose] request with a formula, the handler hands the parameter to
    the task and passes on what the task gives: a result is returned with
    status 200 under [formulas], respectively [components], and an
    exception is raised on, not turned into a response. *)
Theorem handler_passes_on_task_outcome `{Builtins} `{Runtime} `{Services}
    (task : LambdaFunction.TaskObject) (e params : dict json) (context : json)
    (i i' : LambdaFunction.invocation) (outcome : exn + json) :
  is_preflight e = false ->
  query_parameters e = JObject params ->
  (event_get params "action" = JString "brainstorm" ->
   truthy (event_get params "market_description") = true ->
   LambdaFunction.generate_market_formulas task (event_get params "market_description")
     (with_lines i (lines_before_action e (JObject params) (JString "brainstorm")))
   = (i', outcome) ->
   LambdaFunction.lambda_handler task (JObject e) context i =
     (i',
      match outcome with
      | inl exception => inl exception
      | inr formulas => inr (LambdaFunction._response 200 [ ("formulas", formulas) ])
      end))
  /\ (event_get params "action" = JString "decompose" ->
      truthy (event_get params "formula") = true ->
      LambdaFunction.get_components_from_formula task (event_get params "formula")
        (with_lines i (lines_before_action e (JObject params) (JString "decompose")))
      = (i', outcome) ->
      LambdaFunction.lambda_handler task (JObject e) context i =
        (i',
         match outcome with
         | inl exception => inl exception
         | inr components =>
             inr (LambdaFunction._response 200 [ ("components", components) ])
         end)).
Proof.
  intros Hpre Hparams.
  split; intros Haction Hgiven Hcall; step_handler;
    unfold with_lines, lines_before_action, event_get in Hcall; simpl in Hcall;
    rewrite Hpre, Hparams; cbn [get_method]; rewrite Haction; simpl;
    cbn [get_method]; rewrite Hgiven; simpl; rewrite Hcall;
    now destruct outcome.
Qed.

Lemma handler_passes_on_task_outcome_witness :
  snd (LambdaFunction.lambda_handler ScriptedHandler.task
         (ScriptedHandler.event "GET"
            [ ("action", JString "brainstorm");
              ("market_description", JString "scooter rentals") ] JNull)
         JNull (ScriptedHandler.start [ Script.ok Script.empty_object ]))
  = inr (LambdaFunction._response 200 [ ("formulas", JArray []) ]).
Proof.
  pose (e := [ ("httpMethod", JString "GET");
               ("queryStringParameters",
                JObject [ ("action", JString "brainstorm");
                          ("market_description", JString "scooter rentals") ]);
               ("body", JNull) ]).
  pose (params := [ ("action", JString "brainstorm");
                    ("market_description", JString "scooter rentals") ]).
  pose (i := ScriptedHandler.start [ Script.ok Script.empty_object ]).
  pose (i1 := with_lines i (lines_before_action e (JObject params) (JString "brainstorm"))).
  assert (Hcall : LambdaFunction.generate_market_formulas ScriptedHandler.task
                    (event_get params "market_description") i1
                  = (fst (LambdaFunction.generate_market_formulas ScriptedHandler.task
                            (event_get params "market_description") i1),
                     inr (JArray [])))
    by (vm_compute; reflexivity).
  destruct (handler_passes_on_task_outcome ScriptedHandler.task e params JNull i
              (fst (LambdaFunction.generate_market_formulas ScriptedHandler.task
                      (event_get params "market_description") i1))
              (inr (JArray [])) eq_refl eq_refl) as [Hbrainstorm _].
  change (ScriptedHandler.event "GET"
            [ ("action", JString "brainstorm");
              ("market_description", JString "scooter rentals") ] JNull)
    with (JObject e).
  fold i. rewrite (Hbrainstorm eq_refl eq_refl Hcall). reflexivity.
Defined.

(** X23. A [datasource] request whose body is a JSON object with a list
    of component names is always answered with status 200.  The handler
    runs the batch on the names, in their order, from the outside as the
    request found it, and what it returns under [datasources] is the dict
    that this run of the batch returns, [None] and lists alike; the
    invocation ends in the state the batch has left, its lines printed
    after the thirteen lines of the handler.  The dict has one entry for
    each distinct name. *)
Theorem handler_datasource_returns_batch `{Builtins} `{Runtime} `{Services}
    (self : ResearchSequenceTask.Task) (beyond : LambdaFunction.TaskObject)
    (e params body : dict json) (context : json) (i : LambdaFunction.invocation)
    (text : string) (items : list json) (names : list string) :
  is_preflight e = false ->
  query_parameters e = JObject params ->
  event_get params "action" = JString "datasource" ->
  request_body e = JString text ->
  json_loads text = Some (JObject body) ->
  event_get body "components" = JArray items ->
  LambdaFunction.names_of items = Some names ->
  exists s' all_results,
    ResearchSequenceTask.run_exa_workflow_for_components_sequential self names
      {| outside := LambdaFunction.reached i; stdout := [] |} = (s', inr all_results)
    /\ LambdaFunction.lambda_handler (LambdaFunction.module_task self beyond) (JObject e)
         context i
       = ({| LambdaFunction.reached := outside s';
             LambdaFunction.printed_lines :=
               LambdaFunction.printed_lines
                 (with_lines i
                    (lines_before_batch e (JObject params) (JObject body) (JArray items)))
               ++ map TaskLine (stdout s') |},
          inr (LambdaFunction._response 200
                 [ ("datasources", LambdaFunction.datasources_value all_results) ]))
    /\ dict_keys all_results = first_occurrences names
    /\ forall c, In c names -> exists value, dict_get all_results c = Some value.
Proof.
  intros Hpre Hparams Haction Hbody Hloads Hcomponents Hnames.
  destruct (for_each_component_returns self names empty
              (printed {| outside := LambdaFunction.reached i; stdout := [] |}
                 (LogComponents names))) as (s1 & final & Hloop).
  pose proof (run_sequential_outcome self names _ s1 final Hloop) as Hbatch.
  exists (printed s1 LogAllComplete), final.
  split; [exact Hbatch|].
  assert (Hkeys : dict_keys final = first_occurrences names).
  { now rewrite (for_each_component_keys self names empty final _ s1 Hloop). }
  split; [|split; [exact Hkeys|]].
  - unfold with_lines, lines_before_batch, lines_before_action.
    step_handler.
    rewrite Hpre, Hparams. cbn [get_method]. rewrite Haction. simpl.
    rewrite Hbody. unfold loads. rewrite Hloads. cbn [get_method].
    rewrite Hcomponents. simpl. rewrite Hnames.
    unfold LambdaFunction.map_result, LambdaFunction.run_method, LambdaFunction.hbind,
      LambdaFunction.hret.
    cbn [LambdaFunction.reached]. rewrite Hbatch. reflexivity.
  - intros c Hc. apply DictFacts.dict_get_In. rewrite Hkeys.
    unfold first_occurrences. rewrite first_occurrences_from_In. simpl. tauto.
Qed.

Lemma handler_datasource_returns_batch_witness :
  exists i',
    LambdaFunction.lambda_handler (H := ScriptedHandler.builtins)
      (LambdaFunction.module_task (H := ScriptedHandler.builtins) Script.task
         ScriptedHandler.beyond)
      (ScriptedHandler.event "POST" [ ("action", JString "datasource") ]
         (JString ScriptedHandler.two_components))
      JNull (ScriptedHandler.start [])
    = (i',
       inr (LambdaFunction._response 200
              [ ("datasources",
                 JObject [ ("Nothing", JArray []); ("BadComponent", JNull) ]) ])).
Proof.
  destruct (handler_datasource_returns_batch (H := ScriptedHandler.builtins)
              Script.task ScriptedHandler.beyond
              [ ("httpMethod", JString "POST");
                ("queryStringParameters", JObject [ ("action", JString "datasource") ]);
                ("body", JString ScriptedHandler.two_components) ]
              [ ("action", JString "datasource") ]
              [ ("components", JArray [ JString "Nothing"; JString "BadComponent" ]) ]
              JNull (ScriptedHandler.start []) ScriptedHandler.two_components
              [ JString "Nothing"; JString "BadComponent" ] [ "Nothing"; "BadComponent" ]
              eq_refl eq_refl eq_refl eq_refl eq_refl eq_refl eq_refl)
    as (s' & all_results & Hbatch & Hrun & _).
  vm_compute in Hbatch. injection Hbatch as <- <-.
  eexists. exact Hrun.
Defined.
